(** * hashtext: a REST service that exchanges text for its SHA-256 hash

    A shallow embedding of [hashtext/handlers.go] and [hashtext/router.go]
    together with the parts of the Go standard library and of the PostgreSQL
    schema ([schema.sql]) the handlers rely on, followed by the properties
    of the service.

    Go strings are byte sequences, so they are embedded as [string] (a list
    of 8-bit [ascii]).  A [uint32] is a [Z] reduced modulo [2^32]. *)

From Stdlib Require Import ZArith List String Ascii Bool Lia DecimalString.
Import ListNotations.

Local Open Scope Z_scope.

(** ** crypto/sha256 *)

Module Sha256.

(** [chunk] and [Size] of crypto/sha256, in bytes. *)
Definition chunk : nat := 64.
Definition Size : nat := 32.

Definition u32 (x : Z) : Z := x mod 2 ^ 32.

(** [bits.RotateLeft32(x, -n)]. *)
Definition rotr (x n : Z) : Z :=
  Z.lor (Z.shiftr x n) (u32 (Z.shiftl x (32 - n))).

(** [^x] on a [uint32]. *)
Definition not32 (x : Z) : Z := Z.lxor x (2 ^ 32 - 1).

(** [_K], eight constants to a row. *)
Definition _K : list Z :=
  [ 0x428a2f98; 0x71374491; 0xb5c0fbcf; 0xe9b5dba5;
    0x3956c25b; 0x59f111f1; 0x923f82a4; 0xab1c5ed5 ] ++
  [ 0xd807aa98; 0x12835b01; 0x243185be; 0x550c7dc3;
    0x72be5d74; 0x80deb1fe; 0x9bdc06a7; 0xc19bf174 ] ++
  [ 0xe49b69c1; 0xefbe4786; 0x0fc19dc6; 0x240ca1cc;
    0x2de92c6f; 0x4a7484aa; 0x5cb0a9dc; 0x76f988da ] ++
  [ 0x983e5152; 0xa831c66d; 0xb00327c8; 0xbf597fc7;
    0xc6e00bf3; 0xd5a79147; 0x06ca6351; 0x14292967 ] ++
  [ 0x27b70a85; 0x2e1b2138; 0x4d2c6dfc; 0x53380d13;
    0x650a7354; 0x766a0abb; 0x81c2c92e; 0x92722c85 ] ++
  [ 0xa2bfe8a1; 0xa81a664b; 0xc24b8b70; 0xc76c51a3;
    0xd192e819; 0xd6990624; 0xf40e3585; 0x106aa070 ] ++
  [ 0x19a4c116; 0x1e376c08; 0x2748774c; 0x34b0bcb5;
    0x391c0cb3; 0x4ed8aa4a; 0x5b9cca4f; 0x682e6ff3 ] ++
  [ 0x748f82ee; 0x78a5636f; 0x84c87814; 0x8cc70208;
    0x90befffa; 0xa4506ceb; 0xbef9a3f7; 0xc67178f2 ].

(** The eight chaining words [h[0..7]] of a [digest]. *)
Record state : Type := mkState {
  h0 : Z; h1 : Z; h2 : Z; h3 : Z; h4 : Z; h5 : Z; h6 : Z; h7 : Z
}.

(** [init0 .. init7]. *)
Definition init : state :=
  mkState 0x6a09e667 0xbb67ae85 0x3c6ef372 0xa54ff53a
          0x510e527f 0x9b05688c 0x1f83d9ab 0x5be0cd19.

(** First loop of [blockGeneric]: the sixteen big-endian words of a
    chunk, [w[i] = p[j]<<24 | p[j+1]<<16 | p[j+2]<<8 | p[j+3]]. *)
Fixpoint load_words (n : nat) (p : list Z) : list Z :=
  match n with
  | O => []
  | S n' =>
      match p with
      | b0 :: b1 :: b2 :: b3 :: rest =>
          Z.lor (Z.lor (Z.lor (Z.shiftl b0 24) (Z.shiftl b1 16))
                       (Z.shiftl b2 8)) b3
          :: load_words n' rest
      | _ => []
      end
  end.

Definition w_at (w : list Z) (i : nat) : Z := nth i w 0.

(** Second loop of [blockGeneric]: the message schedule, extended one
    word at a time from [i = 16]; [k] counts the words still to add. *)
Fixpoint schedule (k : nat) (w : list Z) : list Z :=
  match k with
  | O => w
  | S k' =>
      let i := List.length w in
      let v1 := w_at w (i - 2) in
      let t1 := Z.lxor (Z.lxor (rotr v1 17) (rotr v1 19)) (Z.shiftr v1 10) in
      let v2 := w_at w (i - 15) in
      let t2 := Z.lxor (Z.lxor (rotr v2 7) (rotr v2 18)) (Z.shiftr v2 3) in
      schedule k' (w ++ [u32 (t1 + w_at w (i - 7) + t2 + w_at w (i - 16))])
  end.

(** One iteration of the third loop of [blockGeneric]. *)
Definition round (s : state) (kw : Z * Z) : state :=
  let '(mkState a b c d e f g h) := s in
  let '(k, w) := kw in
  let t1 := u32 (h + Z.lxor (Z.lxor (rotr e 6) (rotr e 11)) (rotr e 25)
                   + Z.lxor (Z.land e f) (Z.land (not32 e) g) + k + w) in
  let t2 := u32 (Z.lxor (Z.lxor (rotr a 2) (rotr a 13)) (rotr a 22)
                 + Z.lxor (Z.lxor (Z.land a b) (Z.land a c)) (Z.land b c)) in
  mkState (u32 (t1 + t2)) a b c (u32 (d + t1)) e f g.

(** [blockGeneric] on one chunk [p] of 64 bytes. *)
Definition block (s : state) (p : list Z) : state :=
  let w := schedule 48 (load_words 16 p) in
  let r := fold_left round (combine _K w) s in
  mkState (u32 (h0 s + h0 r)) (u32 (h1 s + h1 r))
          (u32 (h2 s + h2 r)) (u32 (h3 s + h3 r))
          (u32 (h4 s + h4 r)) (u32 (h5 s + h5 r))
          (u32 (h6 s + h6 r)) (u32 (h7 s + h7 r)).

(** The loop [for len(p) >= chunk] of [blockGeneric]; [n] bounds the
    number of chunks. *)
Fixpoint blocks (n : nat) (s : state) (p : list Z) : state :=
  match n with
  | O => s
  | S n' =>
      if (List.length p <? chunk)%nat then s
      else blocks n' (block s (firstn chunk p)) (skipn chunk p)
  end.

(** [binary.BigEndian.PutUint64] / [PutUint32]: [n] bytes, most
    significant first. *)
Fixpoint big_endian (n : nat) (x : Z) : list Z :=
  match n with
  | O => []
  | S n' => Z.shiftr x (8 * Z.of_nat n') mod 256 :: big_endian n' x
  end.

(** The padding written by [checkSum]: a 1 bit, 0 bits up to 56 bytes
    modulo 64, then the length in bits as a [uint64]. *)
Definition padding (len : Z) : list Z :=
  let t := if len mod 64 <? 56 then 56 - len mod 64
           else 64 + 56 - len mod 64 in
  0x80 :: repeat 0 (Z.to_nat t - 1) ++ big_endian 8 ((len * 8) mod 2 ^ 64).

(** [h := sha256.New(); h.Write(data); h.Sum(nil)]. *)
Definition Sum (data : list Z) : list Z :=
  let p := data ++ padding (Z.of_nat (List.length data)) in
  let s := blocks (List.length p) init p in
  big_endian 4 (h0 s) ++ big_endian 4 (h1 s) ++ big_endian 4 (h2 s) ++
  big_endian 4 (h3 s) ++ big_endian 4 (h4 s) ++ big_endian 4 (h5 s) ++
  big_endian 4 (h6 s) ++ big_endian 4 (h7 s).

End Sha256.

(** ** encoding/hex *)

Module Hex.

(** [hextable]. *)
Definition hextable : string := "0123456789abcdef".

Definition digit (n : Z) : ascii :=
  match String.get (Z.to_nat n) hextable with
  | Some c => c
  | None => "0"%char
  end.

(** [hex.EncodeToString]: [hextable[v>>4]] then [hextable[v&0x0f]] for
    every byte [v]. *)
Fixpoint EncodeToString (src : list Z) : string :=
  match src with
  | [] => EmptyString
  | v :: rest =>
      String (digit (Z.shiftr v 4))
             (String (digit (Z.land v 0x0f)) (EncodeToString rest))
  end.

End Hex.

(** [[]byte(s)]. *)
Definition bytes_of_string (s : string) : list Z :=
  map (fun c => Z.of_nat (nat_of_ascii c)) (list_ascii_of_string s).

(** handlers.go, [sha256String]. *)
Definition sha256String (s : string) : string :=
  Hex.EncodeToString (Sha256.Sum (bytes_of_string s)).


(** ** reflect.StructTag and the field names of encoding/json *)

Module StructTag.

Definition dquote : ascii := "034"%char.
Definition backslash : ascii := "092"%char.

Definition code (c : ascii) : nat := nat_of_ascii c.

(** [for i < len(tag) && tag[i] == ' ' { i++ }; tag = tag[i:]]. *)
Fixpoint skip_spaces (tag : string) : string :=
  match tag with
  | String c rest => if (c =? " ")%char then skip_spaces rest else tag
  | EmptyString => tag
  end.

(** The scan to the colon, which stops at a space, a control
    character, a colon, a double quote or 0x7f: the scanned name and
    the text from [tag[i]] on. *)
Fixpoint scan_name (tag : string) : string * string :=
  match tag with
  | String c rest =>
      if ((32 <? code c)%nat && negb (c =? ":")%char
          && negb (c =? dquote)%char && negb (code c =? 127)%nat)%bool
      then let '(n, r) := scan_name rest in (String c n, r)
      else (EmptyString, tag)
  | EmptyString => (EmptyString, tag)
  end.

(** The scan of the quoted string, run after the opening quote; a
    backslash skips the character after it.  The text between the
    quotes and the text after the closing quote, or [None] when the
    scan runs off the end of the tag. *)
Fixpoint scan_quoted (tag : string) : option (string * string) :=
  match tag with
  | EmptyString => None
  | String c rest =>
      if (c =? dquote)%char then Some (EmptyString, rest)
      else if (c =? backslash)%char then
        match rest with
        | EmptyString => None
        | String c' rest' =>
            match scan_quoted rest' with
            | Some (v, r) => Some (String c (String c' v), r)
            | None => None
            end
        end
      else
        match scan_quoted rest with
        | Some (v, r) => Some (String c v, r)
        | None => None
        end
  end.

Fixpoint has_char (c : ascii) (s : string) : bool :=
  match s with
  | EmptyString => false
  | String c' rest => (c' =? c)%char || has_char c rest
  end.

(** [strconv.Unquote] on a double-quoted value.  A value without a
    backslash or a newline denotes itself; the escape sequences of Go
    string literals, which no tag of this program uses, are not
    interpreted and are reported like a malformed value. *)
Definition Unquote (v : string) : option string :=
  if (has_char backslash v || has_char "010"%char v)%bool then None
  else Some v.

(** [StructTag.Lookup]; [n] bounds the number of key and value pairs
    looked at.  Every [break] of the loop returns [None]. *)
Fixpoint Lookup_loop (n : nat) (tag key : string) : option string :=
  match n with
  | O => None
  | S n' =>
      match skip_spaces tag with
      | EmptyString => None
      | tag1 =>
          match scan_name tag1 with
          | (EmptyString, _) => None
          | (name, String c1 (String c2 tag2)) =>
              if ((c1 =? ":")%char && (c2 =? dquote)%char)%bool then
                match scan_quoted tag2 with
                | None => None
                | Some (qvalue, tag3) =>
                    if (name =? key)%string then Unquote qvalue
                    else Lookup_loop n' tag3 key
                end
              else None
          | _ => None
          end
      end
  end.

Definition Lookup (tag key : string) : option string :=
  Lookup_loop (String.length tag) tag key.

(** [StructTag.Get]. *)
Definition Get (tag key : string) : string :=
  match Lookup tag key with
  | Some v => v
  | None => EmptyString
  end.

End StructTag.

Module Json.

(** A JSON value.  The byte syntax of JSON texts is left out: a request
    body that is a JSON text is given by its value, and a response body
    written from [json.Marshal] by the value it encodes.  A number is
    kept as its literal. *)
#[local] Set Warnings "-register-all".
Inductive value : Type :=
| Null
| Bool (b : bool)
| Num (lit : string)
| Str (s : string)
| Arr (items : list value)
| Obj (members : list (string * value)).

(** [parseTag]: the name is the tag value up to its first comma. *)
Fixpoint tag_name (tag : string) : string :=
  match tag with
  | EmptyString => EmptyString
  | String c rest =>
      if (c =? ",")%char then EmptyString else String c (tag_name rest)
  end.

(** The key of a struct field in [typeFields]: the name given by the
    [json] key of its tag, and the Go field name when that is empty.
    (The tag [-] and names that [isValidTag] refuses do not occur in
    this program.) *)
Definition field_name (goName tag : string) : string :=
  match tag_name (StructTag.Get tag "json") with
  | EmptyString => goName
  | name => name
  end.

Definition upper (c : ascii) : ascii :=
  let n := nat_of_ascii c in
  if ((97 <=? n) && (n <=? 122))%nat%bool then ascii_of_nat (n - 32) else c.

Fixpoint fold (s : string) : string :=
  match s with
  | EmptyString => EmptyString
  | String c rest => String (upper c) (fold rest)
  end.

(** How [object] finds the field for a key: the exact name, or else
    the name up to the case of ASCII letters. *)
Definition key_matches (name key : string) : bool :=
  ((name =? key) || (fold name =? fold key))%string.

(** [strconv.Itoa], for the numbers [Marshal] writes. *)
Definition Itoa (n : Z) : string :=
  DecimalString.NilZero.string_of_int (Z.to_int n).

End Json.

(** ** net/http: requests and responses *)

Definition StatusOK : Z := 200.
Definition StatusBadRequest : Z := 400.
Definition StatusUnauthorized : Z := 401.
Definition StatusPaymentRequired : Z := 402.
Definition StatusNotFound : Z := 404.
Definition StatusInternalServerError : Z := 500.

(** What [ioutil.ReadAll(r.Body)] followed by [json.Unmarshal] can meet. *)
Inductive body : Type :=
| Unreadable                    (* ReadAll returns an error *)
| Malformed                     (* the bytes are not a JSON text *)
| Document (j : Json.value).    (* the bytes are the JSON text of j *)

(** [Header] holds the request headers, first value first, under the
    names the handlers ask for (the canonical form net/http gives to
    header names is left out); [Vars] is the route variables mux
    attaches to the request. *)
Record Request : Type := mkRequest {
  Method : string;
  Path : string;
  Header : list (string * string);
  Vars : list (string * string);
  Body : body
}.

(** What a handler wrote to its [http.ResponseWriter]. *)
Inductive payload : Type :=
| Empty
| Plain (s : string)
| JSON (j : Json.value).

Record Response : Type := mkResponse {
  StatusCode : Z;
  RHeader : list (string * string);
  RBody : payload
}.

Fixpoint assoc (k : string) (l : list (string * string)) : option string :=
  match l with
  | [] => None
  | (k', v) :: rest => if (k' =? k)%string then Some v else assoc k rest
  end.

(** [Header.Get] and the lookup [vars[key]] in a Go map: the empty
    string when the key is absent. *)
Definition Header_Get (r : Request) (key : string) : string :=
  match assoc key (Header r) with Some v => v | None => EmptyString end.

Definition mux_Vars (r : Request) (key : string) : string :=
  match assoc key (Vars r) with Some v => v | None => EmptyString end.

(** ** The database of schema.sql

    [credit BIGINT DEFAULT 0] and [text TEXT] are nullable columns,
    [name] is [NOT NULL].  A [CHAR(64)] key is compared as a string. *)

Record user_row : Type := mkUser {
  u_user_id : string;
  u_name : string;
  u_credit : option Z
}.

Record hash_text_row : Type := mkHashText {
  ht_hash : string;
  ht_text : option string
}.

Record database : Type := mkDatabase {
  user : list user_row;
  hash_text : list hash_text_row
}.

(** The state a request runs in: the database behind the global [db],
    the storage faults to come ([faults] says, statement by statement,
    whether the next statement sent to the database fails; past its end
    none does) and what [log.Printf] has written. *)
Record world : Type := mkWorld {
  db : database;
  faults : list bool;
  logged : list (string * list string)
}.

Definition M (A : Type) : Type := world -> A * world.

Definition ret {A : Type} (a : A) : M A := fun w => (a, w).

Definition bind {A B : Type} (m : M A) (k : A -> M B) : M B :=
  fun w => let '(a, w') := m w in k a w'.

Notation "x <- m ;; k" := (bind m (fun x => k))
  (at level 61, m at next level, right associativity).
Notation "m ;;; k" := (bind m (fun _ => k))
  (at level 61, right associativity).

(** [log.Printf(format, args...)]; the error value among the arguments
    is not recorded. *)
Definition log_Printf (format : string) (args : list string) : M unit :=
  fun w => (tt, mkWorld (db w) (faults w) (logged w ++ [(format, args)])).

(** Whether the statement now sent to the database fails. *)
Definition next_fault : M bool :=
  fun w =>
    match faults w with
    | [] => (false, w)
    | f :: rest => (f, mkWorld (db w) rest (logged w))
    end.

Definition get_db : M database := fun w => (db w, w).

Definition put_db (d : database) : M unit :=
  fun w => (tt, mkWorld d (faults w) (logged w)).

(** The outcome of [QueryRow(...).Scan(...)]. *)
Inductive scanned (A : Type) : Type :=
| Row (a : A)
| ErrNoRows
| ErrOther.
Arguments Row {A} a.
Arguments ErrNoRows {A}.
Arguments ErrOther {A}.

Definition find_user (userID : string) (d : database) : option user_row :=
  find (fun u => (u_user_id u =? userID)%string) (user d).

Definition find_hash (h : string) (d : database) : option hash_text_row :=
  find (fun t => (ht_hash t =? h)%string) (hash_text d).

(** [SELECT 1 FROM "user" WHERE user_id = $1], scanned into a [bool]. *)
Definition query_user_exists (userID : string) : M (scanned bool) :=
  f <- next_fault ;;
  if f then ret ErrOther else
  d <- get_db ;;
  match find_user userID d with
  | Some _ => ret (Row true)
  | None => ret ErrNoRows
  end.

(** [SELECT name, credit FROM "user" WHERE user_id = $1], scanned into a
    [string] and an [int]: a NULL credit does not convert. *)
Definition query_user (userID : string) : M (scanned (string * Z)) :=
  f <- next_fault ;;
  if f then ret ErrOther else
  d <- get_db ;;
  match find_user userID d with
  | Some u =>
      match u_credit u with
      | Some c => ret (Row (u_name u, c))
      | None => ret ErrOther
      end
  | None => ret ErrNoRows
  end.

(** [SELECT credit FROM "user" WHERE user_id = $1], scanned into an
    [int]. *)
Definition query_credit (userID : string) : M (scanned Z) :=
  f <- next_fault ;;
  if f then ret ErrOther else
  d <- get_db ;;
  match find_user userID d with
  | Some u =>
      match u_credit u with
      | Some c => ret (Row c)
      | None => ret ErrOther
      end
  | None => ret ErrNoRows
  end.

(** [SELECT text FROM hash_text WHERE hash = $1], scanned into a
    [string]. *)
Definition query_text (h : string) : M (scanned string) :=
  f <- next_fault ;;
  if f then ret ErrOther else
  d <- get_db ;;
  match find_hash h d with
  | Some t =>
      match ht_text t with
      | Some s => ret (Row s)
      | None => ret ErrOther
      end
  | None => ret ErrNoRows
  end.

(** [INSERT INTO hash_text (hash, text) VALUES ($1, $2) ON CONFLICT DO
    NOTHING]; the result says whether [Exec] returned an error. *)
Definition exec_insert_text (h text : string) : M bool :=
  f <- next_fault ;;
  if f then ret true else
  d <- get_db ;;
  match find_hash h d with
  | Some _ => ret false
  | None =>
      put_db (mkDatabase (user d) (hash_text d ++ [mkHashText h (Some text)])) ;;;
      ret false
  end.

(** [GREATEST(0, credit - 1)]: GREATEST passes over a NULL argument. *)
Definition debited (credit : option Z) : option Z :=
  match credit with
  | Some c => Some (Z.max 0 (c - 1))
  | None => Some 0
  end.

(** [UPDATE "user" SET credit = GREATEST(0, credit - 1) WHERE user_id =
    $1]; the result says whether [Exec] returned an error. *)
Definition exec_debit (userID : string) : M bool :=
  f <- next_fault ;;
  if f then ret true else
  d <- get_db ;;
  put_db (mkDatabase
            (map (fun u => if (u_user_id u =? userID)%string
                           then mkUser (u_user_id u) (u_name u)
                                       (debited (u_credit u))
                           else u) (user d))
            (hash_text d)) ;;;
  ret false.

(** ** handlers.go *)

Definition HandlerFunc : Type := Request -> M Response.

(** [w.WriteHeader(status)] and nothing else. *)
Definition WriteHeader (status : Z) : Response :=
  mkResponse status [] Empty.

Definition sendErrorMessage (msg : string) (status : Z) : Response :=
  mkResponse status [("Content-Type", "text/plain; charset=UTF-8")%string]
             (Plain msg).

(** [json.Marshal] does not fail on the documents of this program, which
    hold strings and an [int]; the branch of [sendJSONResponse] for its
    error is left out, as is the transport error of [w.Write]. *)
Definition sendJSONResponse (data : Json.value) : Response :=
  mkResponse StatusOK
             [("Content-Type", "application/json; charset=UTF-8")%string]
             (JSON data).

Definition userIsAuthorized (r : Request) : M bool :=
  let userID := Header_Get r "X-HashText-User-ID" in
  if (userID =? "")%string then ret false else
  res <- query_user_exists userID ;;
  match res with
  | ErrNoRows => ret false
  | ErrOther =>
      log_Printf "Query to look up user failed: %v" [] ;;;
      ret false
  | Row found => ret found
  end.

Definition wrapHandler (handler : HandlerFunc) : HandlerFunc :=
  fun r =>
    ok <- userIsAuthorized r ;;
    if negb ok then ret (WriteHeader StatusUnauthorized)
    else handler r.

Record userDocument : Type := mkUserDocument {
  UserID : string;
  Name : string;
  Credit : Z
}.

Record textDocument : Type := mkTextDocument { Text : string }.

Record hashDocument : Type := mkHashDocument { Hash : string }.

(** The struct tags as written in the source: [`json:user_id`],
    ["json:text"] and ["json:hash"]; [Name] and [Credit] have none. *)
Definition tag_UserID : string := "json:user_id".
Definition tag_Text : string := "json:text".
Definition tag_Hash : string := "json:hash".

(** [json.Marshal] on the three documents. *)
Definition Marshal_userDocument (d : userDocument) : Json.value :=
  Json.Obj [ (Json.field_name "UserID" tag_UserID, Json.Str (UserID d));
             (Json.field_name "Name" "", Json.Str (Name d));
             (Json.field_name "Credit" "", Json.Num (Json.Itoa (Credit d))) ].

Definition Marshal_textDocument (d : textDocument) : Json.value :=
  Json.Obj [ (Json.field_name "Text" tag_Text, Json.Str (Text d)) ].

Definition Marshal_hashDocument (d : hashDocument) : Json.value :=
  Json.Obj [ (Json.field_name "Hash" tag_Hash, Json.Str (Hash d)) ].

(** [json.Unmarshal(body, &td)] on a JSON text, [td] being the zero
    [textDocument].  [null] leaves [td] as it is; in an object every
    member whose key matches the field is stored into it, a later one
    over an earlier one: a string is stored, [null] is passed over, any
    other value is a type error, reported once the object is read;
    members with other keys are ignored.  Any other JSON value is a type
    error.  [None] stands for the error. *)
Fixpoint Unmarshal_members (members : list (string * Json.value))
    (td : textDocument) (failed : bool) : option textDocument :=
  match members with
  | [] => if failed then None else Some td
  | (key, v) :: rest =>
      if Json.key_matches (Json.field_name "Text" tag_Text) key then
        match v with
        | Json.Str s => Unmarshal_members rest (mkTextDocument s) failed
        | Json.Null => Unmarshal_members rest td failed
        | _ => Unmarshal_members rest td true
        end
      else Unmarshal_members rest td failed
  end.

Definition Unmarshal_textDocument (j : Json.value) : option textDocument :=
  match j with
  | Json.Null => Some (mkTextDocument "")
  | Json.Obj members => Unmarshal_members members (mkTextDocument "") false
  | _ => None
  end.

Definition userHandler : HandlerFunc :=
  fun r =>
    let userID := Header_Get r "X-HashText-User-ID" in
    res <- query_user userID ;;
    match res with
    | ErrNoRows => ret (WriteHeader StatusNotFound)
    | ErrOther =>
        log_Printf "Query to look up user failed: %v" [] ;;;
        ret (WriteHeader StatusInternalServerError)
    | Row (name, credit) =>
        ret (sendJSONResponse
               (Marshal_userDocument (mkUserDocument userID name credit)))
    end.

Definition userHasCredit (userID : string) : M bool :=
  res <- query_credit userID ;;
  match res with
  | Row credit => ret (0 <? credit)
  | _ =>
      log_Printf "Query to look up user failed: %v" [] ;;;
      ret false
  end.

Definition insertText (text hash userID : string) : M unit :=
  err <- exec_insert_text hash text ;;
  if err then
    log_Printf "Failed to insert text with hash = %s: %v" [hash]
  else
    err <- exec_debit userID ;;
    if err then
      log_Printf "Failed to debit user with user_id = %s: %v" [userID]
    else ret tt.

Definition textHandler : HandlerFunc :=
  fun r =>
    let userID := Header_Get r "X-HashText-User-ID" in
    credit <- userHasCredit userID ;;
    if negb credit then
      ret (sendErrorMessage
             "You are out of credit. Please pay us more money."
             StatusPaymentRequired)
    else
      match Body r with
      | Unreadable =>
          log_Printf "Failed to read the request body: %v" [] ;;;
          ret (WriteHeader StatusInternalServerError)
      | Malformed =>
          ret (sendErrorMessage "Could not decode the request body as JSON"
                                StatusBadRequest)
      | Document j =>
          match Unmarshal_textDocument j with
          | None =>
              ret (sendErrorMessage
                     "Could not decode the request body as JSON"
                     StatusBadRequest)
          | Some td =>
              let hash := sha256String (Text td) in
              insertText (Text td) hash userID ;;;
              ret (sendJSONResponse
                     (Marshal_hashDocument (mkHashDocument hash)))
          end
      end.

Definition textHashHandler : HandlerFunc :=
  fun r =>
    res <- query_text (mux_Vars r "hash") ;;
    match res with
    | ErrNoRows => ret (WriteHeader StatusNotFound)
    | ErrOther =>
        log_Printf "Query to look up text by hash failed: %v" [] ;;;
        ret (WriteHeader StatusInternalServerError)
    | Row text =>
        ret (sendJSONResponse (Marshal_textDocument (mkTextDocument text)))
    end.

(** ** router.go *)

Inductive route : Type :=
| RouteUserMe
| RouteText
| RouteTextHash (hash : string).

Fixpoint strip_prefix (p s : string) : option string :=
  match p with
  | EmptyString => Some s
  | String c p' =>
      match s with
      | String c' s' => if (c =? c')%char then strip_prefix p' s' else None
      | EmptyString => None
      end
  end.

(** The variable of [/text/{hash}], which mux matches with [[^/]+]: one
    path segment.  The router first redirects a request whose path is
    not clean, so the segments [.] and [..] never reach a route. *)
Definition segment (s : string) : bool :=
  (negb (s =? "")%string && negb (StructTag.has_char "/" s)
   && negb (s =? ".")%string && negb (s =? "..")%string)%bool.

(** The route of [makeRouter] that matches a method and a path; [None]
    when none does and mux answers by itself. *)
Definition match_route (method path : string) : option route :=
  if ((path =? "/user/me") && (method =? "GET"))%string%bool
  then Some RouteUserMe
  else if ((path =? "/text") && (method =? "POST"))%string%bool
  then Some RouteText
  else
    match strip_prefix "/text/" path with
    | Some h =>
        if (segment h && (method =? "GET")%string)%bool
        then Some (RouteTextHash h) else None
    | None => None
    end.

(** [makeRouter().ServeHTTP]: the wrapped handler of the matching route,
    run on the request with its route variables. *)
Definition makeRouter (r : Request) : option (M Response) :=
  match match_route (Method r) (Path r) with
  | Some RouteUserMe => Some (wrapHandler userHandler r)
  | Some RouteText => Some (wrapHandler textHandler r)
  | Some (RouteTextHash h) =>
      Some (wrapHandler textHashHandler
              (mkRequest (Method r) (Path r) (Header r)
                         [("hash", h)%string] (Body r)))
  | None => None
  end.

(** ** Vocabulary of the properties *)

(** The header that carries the caller's token. *)
Definition token (r : Request) : string := Header_Get r "X-HashText-User-ID".

(** The credit column of the user row a token selects. *)
Definition credit_of (userID : string) (d : database) : option Z :=
  match find_user userID d with
  | Some u => u_credit u
  | None => None
  end.

(** The rows of the content table stored under a hash. *)
Definition rows_of (h : string) (d : database) : list hash_text_row :=
  filter (fun t => (ht_hash t =? h)%string) (hash_text d).

(** [hash CHAR(64) PRIMARY KEY]. *)
Definition hash_primary_key (d : database) : Prop :=
  NoDup (map ht_hash (hash_text d)).

Fixpoint all_chars (p : ascii -> bool) (s : string) : bool :=
  match s with
  | EmptyString => true
  | String c rest => p c && all_chars p rest
  end.

(** One of [0-9a-f]. *)
Definition lower_hex (c : ascii) : bool := StructTag.has_char c Hex.hextable.

(** The member names of a JSON object. *)
Definition keys (p : payload) : list string :=
  match p with
  | JSON (Json.Obj members) => map fst members
  | _ => []
  end.

(** One row of the user table after the UPDATE of [exec_debit]. *)
Definition debit_row (userID : string) (u : user_row) : user_row :=
  if (u_user_id u =? userID)%string
  then mkUser (u_user_id u) (u_name u) (debited (u_credit u))
  else u.

(** The content table [insertText] leaves when its insertion does not
    fail. *)
Definition inserted (text hash : string) (d : database) : list hash_text_row :=
  match find_hash hash d with
  | Some _ => hash_text d
  | None => hash_text d ++ [mkHashText hash (Some text)]
  end.

(** The world after a statement that did not fail and wrote nothing. *)
Definition sent (w : world) : world :=
  mkWorld (db w) (tl (faults w)) (logged w).

(** The 200 answer of [sendJSONResponse] on an object with one string
    member. *)
Definition ok_json (key value : string) : Response :=
  mkResponse 200
    [("Content-Type", "application/json; charset=UTF-8")%string]
    (JSON (Json.Obj [(key, Json.Str value)])).

(** A request given to [makeRouter().ServeHTTP]: the answer of the
    handler of its route, or [None] when no route matches and mux
    answers by itself, which sends no statement and logs nothing. *)
Definition serve (r : Request) : M (option Response) :=
  match makeRouter r with
  | Some m => resp <- m ;; ret (Some resp)
  | None => ret None
  end.

(** Requests served one after the other. *)
Fixpoint serve_all (rs : list Request) : M (list (option Response)) :=
  match rs with
  | [] => ret []
  | r :: rest =>
      a <- serve r ;;
      l <- serve_all rest ;;
      ret (a :: l)
  end.

(** Every row of the content table holds a text under the hash of that
    text. *)
Definition well_hashed (d : database) : bool :=
  forallb (fun t => match ht_text t with
                    | Some s => (ht_hash t =? sha256String s)%string
                    | None => false
                    end) (hash_text d).

(** No credit of the user table is negative (a NULL credit is none). *)
Definition credits_not_negative (d : database) : bool :=
  forallb (fun u => match u_credit u with
                    | Some c => 0 <=? c
                    | None => true
                    end) (user d).

(** The 400 answer of [textHandler]. *)
Definition bad_request : Response :=
  mkResponse 400 [("Content-Type", "text/plain; charset=UTF-8")%string]
             (Plain "Could not decode the request body as JSON").

(** A member that matches the field of [textDocument] and holds neither
    a string nor [null]. *)
Definition wrong_type (member : string * Json.value) : bool :=
  Json.key_matches (Json.field_name "Text" tag_Text) (fst member) &&
  match snd member with
  | Json.Str _ | Json.Null => false
  | _ => true
  end.

(** The string a member stores into the field, if it stores one. *)
Definition stored (member : string * Json.value) : option string :=
  if Json.key_matches (Json.field_name "Text" tag_Text) (fst member)
  then match snd member with
       | Json.Str s => Some s
       | _ => None
       end
  else None.

(** The last string the members of an object store into the field, and
    [start] when they store none. *)
Definition last_stored (members : list (string * Json.value))
    (start : string) : string :=
  fold_left (fun acc m => match stored m with Some s => s | None => acc end)
            members start.

(** The three things a request can do to the database: nothing; store a
    text under its hash (when the debit that should follow fails); store
    a text under its hash and debit a user whose credit was positive. *)
Inductive db_step (d : database) : database -> Prop :=
| step_nothing : db_step d d
| step_store (text : string) :
    db_step d (mkDatabase (user d) (inserted text (sha256String text) d))
| step_submit (text userID : string) (u : user_row) (c : Z) :
    find_user userID d = Some u -> u_credit u = Some c -> 0 < c ->
    db_step d (mkDatabase (map (debit_row userID) (user d))
                          (inserted text (sha256String text) d)).

(** A POST /text sent with the token [userID] whose body decodes. *)
Definition submission (userID : string) (r : Request) : Prop :=
  Method r = "POST"%string /\ Path r = "/text"%string /\
  token r = userID /\
  exists j td, Body r = Document j /\ Unmarshal_textDocument j = Some td.

(** The shapes an answer of the handlers has: a JSON body goes with
    status 200 and the JSON content type, a text body with 400 or 402
    and the text content type, and no body with 401, 404 or 500 and no
    header. *)
Definition well_typed (resp : Response) : Prop :=
  match RBody resp with
  | JSON _ =>
      StatusCode resp = 200 /\
      RHeader resp =
        [("Content-Type", "application/json; charset=UTF-8")%string]
  | Plain _ =>
      (StatusCode resp = 400 \/ StatusCode resp = 402) /\
      RHeader resp = [("Content-Type", "text/plain; charset=UTF-8")%string]
  | Empty =>
      (StatusCode resp = 401 \/ StatusCode resp = 404 \/
       StatusCode resp = 500) /\
      RHeader resp = []
  end.

(** The status codes each route can answer. *)
Definition route_statuses (rt : route) : list Z :=
  match rt with
  | RouteUserMe => [200; 401; 404; 500]
  | RouteText => [200; 400; 401; 402; 500]
  | RouteTextHash _ => [200; 401; 404; 500]
  end.

(** What holds of every answer of a handler: well typed, with a status
    among [codes], and logged when it is 500. *)
Definition fine (codes : list Z) (w : world) (a : Response * world) : Prop :=
  well_typed (fst a) /\ In (StatusCode (fst a)) codes /\
  (StatusCode (fst a) = 500 ->
   exists e, logged (snd a) = logged w ++ [e]).

(** The fixtures of handlers_test.go ([populateTables]). *)
Definition fixture_user (name : string) (credit : Z) : user_row :=
  mkUser (sha256String name) name (Some credit).

Definition fixtures : world :=
  mkWorld (mkDatabase [ fixture_user "Jane" 1000000;
                        fixture_user "Xiomara" 1000000;
                        fixture_user "Petra" 0 ] [])
          [] [].

Definition request (method path userID : string) (b : body) : Request :=
  mkRequest method path [("X-HashText-User-ID", userID)%string] [] b.

(** The body [{"text": s}]. *)
Definition text_body (s : string) : body :=
  Document (Json.Obj [("text"%string, Json.Str s)]).

(** The requests of the tests: the tokens of Jane and Petra, the token
    [foo] of nobody, the text of [TestTextHandler]. *)
Definition jane : string := sha256String "Jane".
Definition petra : string := sha256String "Petra".

Definition foo_asks_me : Request := request "GET" "/user/me" "foo" Malformed.

Definition jane_asks_me : Request := request "GET" "/user/me" jane Malformed.

Definition jane_posts : Request :=
  request "POST" "/text" jane (text_body "test text handler").

Definition petra_posts : Request :=
  request "POST" "/text" petra (text_body "test text handler").

Definition jane_gets : Request :=
  request "GET" ("/text/" ++ sha256String "test text handler") jane Malformed.

(** ** Facts about the hash *)

Section HashFacts.

Lemma big_endian_length (n : nat) (x : Z) :
  List.length (Sha256.big_endian n x) = n.
Proof. induction n as [|n IH]; simpl; [reflexivity | now rewrite IH]. Qed.

Lemma Sum_length (data : list Z) :
  List.length (Sha256.Sum data) = Sha256.Size.
Proof.
  unfold Sha256.Sum. cbv zeta.
  repeat rewrite length_app. repeat rewrite big_endian_length.
  reflexivity.
Qed.

Lemma EncodeToString_length (src : list Z) :
  String.length (Hex.EncodeToString src) = (2 * List.length src)%nat.
Proof. induction src as [|v rest IH]; simpl; [reflexivity | rewrite IH; lia]. Qed.

Lemma digit_lower_hex (n : Z) : lower_hex (Hex.digit n) = true.
Proof.
  unfold Hex.digit. generalize (Z.to_nat n). intro k.
  do 16 (destruct k as [|k]; [reflexivity|]).
  reflexivity.
Qed.

Lemma EncodeToString_lower_hex (src : list Z) :
  all_chars lower_hex (Hex.EncodeToString src) = true.
Proof.
  induction src as [|v rest IH]; simpl; [reflexivity|].
  now rewrite !digit_lower_hex, IH.
Qed.

Lemma sha256String_length (s : string) :
  String.length (sha256String s) = 64%nat.
Proof.
  unfold sha256String. now rewrite EncodeToString_length, Sum_length.
Qed.

Lemma sha256String_lower_hex (s : string) :
  all_chars lower_hex (sha256String s) = true.
Proof. apply EncodeToString_lower_hex. Qed.

Lemma lower_hex_no_slash (h : string) :
  all_chars lower_hex h = true -> StructTag.has_char "/" h = false.
Proof.
  induction h as [|c rest IH]; simpl; [reflexivity|].
  intros H. apply andb_true_iff in H as [Hc Hrest].
  rewrite (IH Hrest), orb_false_r.
  destruct (Ascii.eqb_spec c "/"); [subst c; discriminate | reflexivity].
Qed.

Lemma segment_hex (h : string) :
  all_chars lower_hex h = true -> (2 < String.length h)%nat ->
  segment h = true.
Proof.
  intros Hhex Hlen. unfold segment.
  rewrite (lower_hex_no_slash h Hhex).
  destruct h as [|c1 [|c2 [|c3 h]]]; simpl in Hlen; try lia.
  simpl.
  destruct (c1 =? ".")%char; [|reflexivity].
  destruct (c2 =? ".")%char; reflexivity.
Qed.

Lemma segment_sha256String (s : string) : segment (sha256String s) = true.
Proof.
  apply segment_hex; [apply sha256String_lower_hex|].
  rewrite sha256String_length. lia.
Qed.

Lemma sha256String_not_empty (s : string) : sha256String s <> EmptyString.
Proof.
  intros H. pose proof (sha256String_length s) as L.
  rewrite H in L. discriminate.
Qed.

(** The path of a hash lookup reaches the third route. *)
Lemma match_route_text_hash (h : string) :
  segment h = true ->
  match_route "GET" ("/text/" ++ h) = Some (RouteTextHash h).
Proof.
  intros Hseg. unfold match_route. simpl. now rewrite Hseg.
Qed.

End HashFacts.

(** ** Facts about the tables *)

Section TableFacts.

Lemma find_app_last {A : Type} (p : A -> bool) (l : list A) (x : A) :
  find p (l ++ [x]) =
  match find p l with
  | Some y => Some y
  | None => if p x then Some x else None
  end.
Proof.
  induction l as [|a l IH]; simpl; [reflexivity|].
  destruct (p a); [reflexivity | exact IH].
Qed.

Lemma find_map_same {A : Type} (p : A -> bool) (f : A -> A) (l : list A) :
  (forall a, p (f a) = p a) ->
  find p (map f l) = option_map f (find p l).
Proof.
  intros Hp. induction l as [|a l IH]; simpl; [reflexivity|].
  rewrite Hp. destruct (p a); [reflexivity | exact IH].
Qed.

Lemma filter_none {A : Type} (p : A -> bool) (l : list A) :
  find p l = None -> filter p l = [].
Proof.
  induction l as [|a l IH]; simpl; [reflexivity|].
  destruct (p a); [discriminate | exact IH].
Qed.

(** Under a primary key the rows a key selects are the one [find]
    returns. *)
Lemma filter_primary_key (l : list hash_text_row) (h : string)
      (t : hash_text_row) :
  NoDup (map ht_hash l) ->
  find (fun x => (ht_hash x =? h)%string) l = Some t ->
  filter (fun x => (ht_hash x =? h)%string) l = [t].
Proof.
  induction l as [|a l IH]; simpl; [discriminate|].
  intros Hnd Hfind. inversion Hnd as [|? ? Hnotin Hnd']; subst.
  destruct (String.eqb_spec (ht_hash a) h) as [Heq|Hne].
  - injection Hfind as ->. f_equal.
    apply filter_none.
    destruct (find (fun x => (ht_hash x =? h)%string) l) as [y|] eqn:Hy;
      [|reflexivity].
    apply find_some in Hy as [Hin Hk].
    apply String.eqb_eq in Hk.
    exfalso. apply Hnotin. rewrite Heq, <- Hk. now apply in_map.
  - now apply IH.
Qed.

Lemma NoDup_map_app_last (l : list hash_text_row) (t : hash_text_row) :
  NoDup (map ht_hash l) ->
  find (fun x => (ht_hash x =? ht_hash t)%string) l = None ->
  NoDup (map ht_hash (l ++ [t])).
Proof.
  intros Hnd Hnone. rewrite map_app. simpl.
  apply NoDup_app; [exact Hnd | repeat constructor; intros [] |].
  intros a Hin [<-|[]].
  apply in_map_iff in Hin as [x [Hx Hin]].
  apply (find_none _ _ Hnone) in Hin.
  rewrite Hx, String.eqb_refl in Hin. discriminate.
Qed.

Lemma debit_row_id (userID : string) (u : user_row) :
  u_user_id (debit_row userID u) = u_user_id u.
Proof. unfold debit_row. now destruct (u_user_id u =? userID)%string. Qed.

Lemma find_user_debit (userID who : string) (us : list user_row)
      (ts : list hash_text_row) :
  find_user who (mkDatabase (map (debit_row userID) us) ts) =
  option_map (debit_row userID) (find_user who (mkDatabase us ts)).
Proof.
  unfold find_user. simpl. apply find_map_same.
  intros a. now rewrite debit_row_id.
Qed.

End TableFacts.

(** ** How the handlers run *)

(** Unfolds the monad and the statements down to the tables. *)
Ltac run_statements :=
  unfold query_user_exists, query_user, query_credit, query_text,
    exec_insert_text, exec_debit, log_Printf, next_fault, get_db, put_db,
    bind, ret;
  cbn.

Section Runs.

Lemma userIsAuthorized_db (r : Request) (w : world) :
  db (snd (userIsAuthorized r w)) = db w.
Proof.
  unfold userIsAuthorized.
  destruct (Header_Get r "X-HashText-User-ID" =? "")%string; [reflexivity|].
  destruct w as [d [|[|] fs] l]; run_statements;
    try match goal with
        | |- context [find_user ?x ?y] => destruct (find_user x y)
        end; reflexivity.
Qed.

Lemma userIsAuthorized_refuses (r : Request) (w : world) :
  token r = EmptyString \/ find_user (token r) (db w) = None ->
  fst (userIsAuthorized r w) = false.
Proof.
  unfold userIsAuthorized, token. intros [H|H].
  - now rewrite H.
  - destruct (Header_Get r "X-HashText-User-ID" =? "")%string; [reflexivity|].
    destruct w as [d [|[|] fs] l]; cbn in H; run_statements;
      try rewrite H; reflexivity.
Qed.

Lemma userIsAuthorized_accepts (r : Request) (w : world) (u : user_row) :
  token r <> EmptyString -> faults w = [] ->
  find_user (token r) (db w) = Some u ->
  userIsAuthorized r w = (true, w).
Proof.
  unfold userIsAuthorized, token. intros Hne Hf Hu.
  destruct (String.eqb_spec (Header_Get r "X-HashText-User-ID") "");
    [contradiction|].
  destruct w as [d fs l]; cbn in *; subst fs. run_statements.
  now rewrite Hu.
Qed.

Lemma userHasCredit_run (userID : string) (w : world) (u : user_row)
      (c : Z) :
  faults w = [] -> find_user userID (db w) = Some u ->
  u_credit u = Some c ->
  userHasCredit userID w = (0 <? c, w).
Proof.
  intros Hf Hu Hc. destruct w as [d fs l]; cbn in *; subst fs.
  unfold userHasCredit. run_statements. now rewrite Hu, Hc.
Qed.

Lemma insertText_run (text hash userID : string) (w : world) :
  faults w = [] ->
  insertText text hash userID w =
  (tt, mkWorld (mkDatabase (map (debit_row userID) (user (db w)))
                           (inserted text hash (db w)))
               [] (logged w)).
Proof.
  intros Hf. destruct w as [d fs l]; cbn in *; subst fs.
  unfold insertText, inserted. run_statements.
  destruct (find_hash hash d); reflexivity.
Qed.

End Runs.

Section MoreRuns.

Lemma userHasCredit_db (userID : string) (w : world) :
  db (snd (userHasCredit userID w)) = db w.
Proof.
  unfold userHasCredit.
  destruct w as [d [|[|] fs] l]; run_statements;
    try (destruct (find_user userID d) as [u|];
         [destruct (u_credit u)|]); reflexivity.
Qed.

(** The three ways the credit lookup gives no positive credit. *)
Lemma userHasCredit_refuses (userID : string) (w : world) :
  (exists fs, faults w = true :: fs) \/
  find_user userID (db w) = None \/
  (exists u, find_user userID (db w) = Some u /\
             forall c, u_credit u = Some c -> c <= 0) ->
  fst (userHasCredit userID w) = false.
Proof.
  unfold userHasCredit.
  intros [[fs Hf]|[Hnone|[u [Hu Hc]]]];
    destruct w as [d fs' l]; cbn in *.
  - subst fs'. reflexivity.
  - destruct fs' as [|[|] fs']; run_statements; try rewrite Hnone;
      reflexivity.
  - destruct fs' as [|[|] fs']; run_statements; try rewrite Hu;
      try reflexivity;
      (destruct (u_credit u) as [c|]; [|reflexivity]);
      cbn; apply Z.ltb_ge; now apply Hc.
Qed.

Lemma textHandler_refuses (r : Request) (w : world) :
  fst (userHasCredit (token r) w) = false ->
  textHandler r w =
  (sendErrorMessage "You are out of credit. Please pay us more money."
                    StatusPaymentRequired,
   snd (userHasCredit (token r) w)).
Proof.
  unfold textHandler, token, bind. intros H.
  destruct (userHasCredit (Header_Get r "X-HashText-User-ID") w)
    as [b w1]. cbn in H. subst b. reflexivity.
Qed.

Lemma wrapHandler_refuses (handler : HandlerFunc) (r : Request) (w : world) :
  fst (userIsAuthorized r w) = false ->
  wrapHandler handler r w =
  (WriteHeader StatusUnauthorized, snd (userIsAuthorized r w)).
Proof.
  unfold wrapHandler, bind. intros H.
  destruct (userIsAuthorized r w) as [b w1]. cbn in H. subst b.
  reflexivity.
Qed.

Lemma wrapHandler_accepts (handler : HandlerFunc) (r : Request)
      (w w1 : world) :
  userIsAuthorized r w = (true, w1) ->
  wrapHandler handler r w = handler r w1.
Proof. unfold wrapHandler, bind. now intros ->. Qed.

(** The gate reads the headers only, which the router leaves alone. *)
Lemma userIsAuthorized_headers (r r' : Request) (w : world) :
  Header r' = Header r -> userIsAuthorized r' w = userIsAuthorized r w.
Proof.
  unfold userIsAuthorized, Header_Get. now intros ->.
Qed.

End MoreRuns.

(** ** The properties *)

(** C5.  A request whose X-HashText-User-ID header is absent, is the
    empty string or names no row of the user table is answered 401 with
    no header and no body written; the answer and the world left behind
    are the same whatever the wrapped handler is, so the handler is not
    run, and the database is left as it was.  The same holds for the
    request served through any of the three routes of the router. *)
Theorem unauthorized_is_401 :
  forall (r : Request) (w : world),
    assoc "X-HashText-User-ID" (Header r) = None \/
    assoc "X-HashText-User-ID" (Header r) = Some EmptyString \/
    find_user (token r) (db w) = None ->
    (forall handler : HandlerFunc,
        wrapHandler handler r w =
        (mkResponse 401 [] Empty, snd (userIsAuthorized r w))) /\
    db (snd (userIsAuthorized r w)) = db w /\
    (forall m : M Response,
        makeRouter r = Some m ->
        fst (m w) = mkResponse 401 [] Empty /\ db (snd (m w)) = db w).
Proof.
  intros r w H.
  assert (Hno : fst (userIsAuthorized r w) = false).
  { apply userIsAuthorized_refuses. unfold token, Header_Get.
    destruct H as [H|[H|H]]; [left; now rewrite H | left; now rewrite H |].
    right. exact H. }
  split; [|split].
  - intros handler. now apply wrapHandler_refuses.
  - apply userIsAuthorized_db.
  - intros m Hm. unfold makeRouter in Hm.
    destruct (match_route (Method r) (Path r)) as [[| |h]|];
      try discriminate; injection Hm as <-;
      try (rewrite (wrapHandler_refuses _ r w Hno); split;
           [reflexivity | apply userIsAuthorized_db]).
    set (r' := mkRequest _ _ _ _ _).
    assert (Hr : userIsAuthorized r' w = userIsAuthorized r w)
      by (now apply userIsAuthorized_headers).
    rewrite wrapHandler_refuses by (now rewrite Hr).
    rewrite Hr. split; [reflexivity | apply userIsAuthorized_db].
Qed.

Lemma unauthorized_is_401_witness :
  (forall handler : HandlerFunc,
      wrapHandler handler foo_asks_me fixtures =
      (mkResponse 401 [] Empty, snd (userIsAuthorized foo_asks_me fixtures))) /\
  db (snd (userIsAuthorized foo_asks_me fixtures)) = db fixtures /\
  (forall m : M Response,
      makeRouter foo_asks_me = Some m ->
      fst (m fixtures) = mkResponse 401 [] Empty /\
      db (snd (m fixtures)) = db fixtures).
Proof.
  apply (unauthorized_is_401 foo_asks_me fixtures).
  right. right. vm_compute. reflexivity.
Defined.

(** C4.  A POST /text request that passes the authorization gate and
    whose user row holds a credit of at most zero is answered 402 with
    the header Content-Type: text/plain; charset=UTF-8 and the fixed
    message as its body, and the database (content table and user
    table) is left as it was. *)
Theorem out_of_credit_is_402 :
  forall (r : Request) (w w1 : world) (u : user_row) (c : Z),
    Method r = "POST"%string -> Path r = "/text"%string ->
    userIsAuthorized r w = (true, w1) ->
    find_user (token r) (db w) = Some u -> u_credit u = Some c -> c <= 0 ->
    exists m : M Response,
      makeRouter r = Some m /\
      StatusCode (fst (m w)) = 402 /\
      RHeader (fst (m w)) =
        [("Content-Type", "text/plain; charset=UTF-8")%string] /\
      RBody (fst (m w)) =
        Plain "You are out of credit. Please pay us more money." /\
      db (snd (m w)) = db w.
Proof.
  intros r w w1 u c Hm Hp Hauth Hu Hc Hle.
  exists (wrapHandler textHandler r).
  split; [unfold makeRouter; now rewrite Hm, Hp|].
  rewrite (wrapHandler_accepts _ _ _ _ Hauth).
  assert (Hdb : db w1 = db w).
  { pose proof (userIsAuthorized_db r w) as H. now rewrite Hauth in H. }
  rewrite textHandler_refuses.
  - cbn. rewrite userHasCredit_db. auto.
  - apply userHasCredit_refuses. right. right. exists u.
    rewrite Hdb. split; [exact Hu|].
    intros c' Hc'. rewrite Hc in Hc'. injection Hc' as <-. exact Hle.
Qed.

Lemma out_of_credit_is_402_witness :
  exists m : M Response,
    makeRouter petra_posts = Some m /\
    StatusCode (fst (m fixtures)) = 402 /\
    RHeader (fst (m fixtures)) =
      [("Content-Type", "text/plain; charset=UTF-8")%string] /\
    RBody (fst (m fixtures)) =
      Plain "You are out of credit. Please pay us more money." /\
    db (snd (m fixtures)) = db fixtures.
Proof.
  apply (out_of_credit_is_402 petra_posts fixtures fixtures
           (fixture_user "Petra" 0) 0).
  - reflexivity.
  - reflexivity.
  - vm_compute. reflexivity.
  - vm_compute. reflexivity.
  - reflexivity.
  - lia.
Defined.

(** C8.  The credit check of the text submission comes before the body
    is read: when the caller's user row holds a credit of at most zero,
    [textHandler] answers 402 with the out-of-credit message whatever
    the request body is (unreadable, not a JSON text, a JSON text of
    the wrong shape or a well-formed document), never 400, and two
    requests of that caller that differ in their bodies only get the
    same answer. *)
Theorem credit_check_precedes_body :
  forall (r : Request) (w : world) (u : user_row) (c : Z),
    find_user (token r) (db w) = Some u -> u_credit u = Some c -> c <= 0 ->
    forall b : body,
      let rb := mkRequest (Method r) (Path r) (Header r) (Vars r) b in
      fst (textHandler rb w) =
        sendErrorMessage "You are out of credit. Please pay us more money."
                         StatusPaymentRequired /\
      StatusCode (fst (textHandler rb w)) = 402 /\
      StatusCode (fst (textHandler rb w)) <> 400 /\
      fst (textHandler rb w) = fst (textHandler r w).
Proof.
  intros r w u c Hu Hc Hle b rb.
  assert (Hno : forall r', token r' = token r ->
                           fst (userHasCredit (token r') w) = false).
  { intros r' ->. apply userHasCredit_refuses. right. right. exists u.
    split; [exact Hu|].
    intros c' Hc'. rewrite Hc in Hc'. injection Hc' as <-. exact Hle. }
  rewrite (textHandler_refuses rb w (Hno rb eq_refl)).
  rewrite (textHandler_refuses r w (Hno r eq_refl)).
  cbn. repeat split. discriminate.
Qed.

Lemma credit_check_precedes_body_witness :
  fst (textHandler
         (mkRequest (Method petra_posts) (Path petra_posts)
                    (Header petra_posts) (Vars petra_posts) Malformed)
         fixtures) =
    sendErrorMessage "You are out of credit. Please pay us more money."
                     StatusPaymentRequired.
Proof.
  assert (Hu : find_user (token petra_posts) (db fixtures) =
               Some (fixture_user "Petra" 0))
    by (vm_compute; reflexivity).
  assert (Hle : 0 <= 0) by lia.
  exact (proj1 (credit_check_precedes_body petra_posts fixtures
                  (fixture_user "Petra" 0) 0 Hu eq_refl Hle Malformed)).
Defined.

(** C10.  When the credit lookup of [textHandler] does not come back
    with a credit (the statement fails, no user row has the caller's
    token, or the credit of the row is NULL) the request is answered
    402 with the out-of-credit message, not 500 and not 404; the
    failure is logged and the database is left as it was. *)
Theorem failed_credit_lookup_is_402 :
  forall (r : Request) (w : world),
    (exists fs, faults w = true :: fs) \/
    find_user (token r) (db w) = None \/
    (exists u, find_user (token r) (db w) = Some u /\ u_credit u = None) ->
    fst (textHandler r w) =
      sendErrorMessage "You are out of credit. Please pay us more money."
                       StatusPaymentRequired /\
    StatusCode (fst (textHandler r w)) = 402 /\
    db (snd (textHandler r w)) = db w /\
    logged (snd (textHandler r w)) =
      logged w ++ [("Query to look up user failed: %v"%string, [])].
Proof.
  intros r w H.
  rewrite textHandler_refuses.
  - cbn. rewrite userHasCredit_db. repeat split.
    unfold userHasCredit. destruct w as [d fs l]; cbn in *.
    destruct H as [[fs' ->]|[Hnone|[u [Hu Hc]]]].
    + reflexivity.
    + destruct fs as [|[|] fs]; run_statements; try rewrite Hnone;
        reflexivity.
    + destruct fs as [|[|] fs]; run_statements; try rewrite Hu;
        try rewrite Hc; reflexivity.
  - apply userHasCredit_refuses.
    destruct H as [H|[H|[u [Hu Hc]]]]; [now left | right; now left |].
    right. right. exists u. split; [exact Hu|]. intros c Hc'.
    rewrite Hc in Hc'. discriminate.
Qed.

Lemma failed_credit_lookup_is_402_witness :
  StatusCode (fst (textHandler
                     (request "POST" "/text" "foo"
                              (text_body "test text handler"))
                     fixtures)) = 402.
Proof.
  apply (failed_credit_lookup_is_402
           (request "POST" "/text" "foo" (text_body "test text handler"))
           fixtures).
  right. left. vm_compute. reflexivity.
Defined.

Section Submission.

(** The names under which [json.Marshal] writes the fields. *)
Lemma Marshal_hashDocument_eq (h : string) :
  Marshal_hashDocument (mkHashDocument h) =
  Json.Obj [("Hash"%string, Json.Str h)].
Proof. reflexivity. Qed.

Lemma Marshal_textDocument_eq (t : string) :
  Marshal_textDocument (mkTextDocument t) =
  Json.Obj [("Text"%string, Json.Str t)].
Proof. reflexivity. Qed.

Lemma Marshal_userDocument_eq (i n : string) (c : Z) :
  Marshal_userDocument (mkUserDocument i n c) =
  Json.Obj [("UserID"%string, Json.Str i); ("Name"%string, Json.Str n);
            ("Credit"%string, Json.Num (Json.Itoa c))].
Proof. reflexivity. Qed.

Lemma userHasCredit_sent (userID : string) (w : world) (u : user_row)
      (c : Z) :
  hd false (faults w) = false ->
  find_user userID (db w) = Some u -> u_credit u = Some c ->
  userHasCredit userID w = (0 <? c, sent w).
Proof.
  intros Hf Hu Hc. unfold userHasCredit, sent.
  destruct w as [d [|f fs] l]; cbn in *; [|subst f];
    run_statements; now rewrite Hu, Hc.
Qed.

Lemma textHandler_submits (r : Request) (w w1 : world) (j : Json.value)
      (td : textDocument) :
  userHasCredit (token r) w = (true, w1) ->
  Body r = Document j -> Unmarshal_textDocument j = Some td ->
  textHandler r w =
  (sendJSONResponse (Json.Obj [("Hash"%string,
                                Json.Str (sha256String (Text td)))]),
   snd (insertText (Text td) (sha256String (Text td)) (token r) w1)).
Proof.
  unfold textHandler, token. intros Hc Hb Hj.
  unfold bind at 1. rewrite Hc. cbn [negb]. rewrite Hb, Hj.
  unfold bind, ret.
  destruct (insertText _ _ _ w1) as [[] w2]. reflexivity.
Qed.

Lemma insertText_insert_fails (text hash userID : string) (w : world)
      (fs : list bool) :
  faults w = true :: fs ->
  insertText text hash userID w =
  (tt, mkWorld (db w) fs
         (logged w ++
          [("Failed to insert text with hash = %s: %v"%string, [hash])])).
Proof.
  intros Hf. destruct w as [d fs' l]; cbn in *; subst fs'.
  reflexivity.
Qed.

Lemma insertText_both_succeed (text hash userID : string) (w : world) :
  Forall (eq false) (firstn 2 (faults w)) ->
  insertText text hash userID w =
  (tt, mkWorld (mkDatabase (map (debit_row userID) (user (db w)))
                           (inserted text hash (db w)))
               (tl (tl (faults w))) (logged w)).
Proof.
  intros Hf. unfold insertText, inserted.
  destruct w as [d [|f1 [|f2 fs]] l]; cbn in Hf;
    repeat match goal with
           | H : Forall _ (_ :: _) |- _ =>
               let E := fresh in
               inversion H as [|? ? E ?]; subst; clear H
           end;
    run_statements; destruct (find_hash hash d); reflexivity.
Qed.

End Submission.

(** C2.  When the two statements of [insertText] (the insertion and the
    debit) do not fail, the credit [c] of the submitting user becomes
    exactly [max 0 (c - 1)], which is not negative; this holds whether
    the content table already had a row under the hash (the table is
    then left as it was) or not (the row is then added). *)
Theorem debit_is_floored_decrement :
  forall (text hash userID : string) (w : world) (u : user_row) (c : Z),
    find_user userID (db w) = Some u -> u_credit u = Some c ->
    Forall (eq false) (firstn 2 (faults w)) ->
    let w' := snd (insertText text hash userID w) in
    credit_of userID (db w') = Some (Z.max 0 (c - 1)) /\
    0 <= Z.max 0 (c - 1) /\
    (forall t, find_hash hash (db w) = Some t ->
               hash_text (db w') = hash_text (db w)) /\
    (find_hash hash (db w) = None ->
     hash_text (db w') = hash_text (db w) ++ [mkHashText hash (Some text)]).
Proof.
  intros text hash userID w u c Hu Hc Hf w'. subst w'.
  rewrite (insertText_both_succeed _ _ _ _ Hf). cbn [snd db hash_text].
  split; [|split; [lia|split]].
  - unfold credit_of. rewrite find_user_debit.
    destruct (db w) as [us ts]. cbn in *. rewrite Hu. cbn.
    unfold debit_row.
    assert (Hid : (u_user_id u =? userID)%string = true).
    { unfold find_user in Hu. now apply find_some in Hu as [_ Hu]. }
    rewrite Hid. cbn. now rewrite Hc.
  - intros t Ht. unfold inserted. now rewrite Ht.
  - intros Ht. unfold inserted. now rewrite Ht.
Qed.

Lemma debit_is_floored_decrement_witness :
  credit_of jane
    (db (snd (insertText "test text handler"
                         (sha256String "test text handler") jane fixtures))) =
  Some (Z.max 0 (1000000 - 1)).
Proof.
  apply (debit_is_floored_decrement "test text handler"
           (sha256String "test text handler") jane fixtures
           (fixture_user "Jane" 1000000) 1000000).
  - vm_compute. reflexivity.
  - reflexivity.
  - cbn. constructor.
Defined.

(** C7.  In a text submission whose credit check passes and whose
    insertion statement fails, the debit statement is not sent: the two
    statements the handler sent are the credit lookup and the insertion,
    the database is left as it was, and the submitting user's credit is
    what it was before the request. *)
Theorem failed_insert_skips_debit :
  forall (r : Request) (w : world) (j : Json.value) (td : textDocument)
         (u : user_row) (c : Z) (fs : list bool),
    find_user (token r) (db w) = Some u -> u_credit u = Some c -> 0 < c ->
    Body r = Document j -> Unmarshal_textDocument j = Some td ->
    faults w = false :: true :: fs ->
    let w' := snd (textHandler r w) in
    db w' = db w /\ credit_of (token r) (db w') = Some c /\ faults w' = fs.
Proof.
  intros r w j td u c fs Hu Hc Hpos Hb Hj Hf w'. subst w'.
  assert (Hcredit : userHasCredit (token r) w = (true, sent w)).
  { rewrite (userHasCredit_sent _ _ u c); [|now rewrite Hf|exact Hu|exact Hc].
    now apply Z.ltb_lt in Hpos as ->. }
  rewrite (textHandler_submits _ _ _ _ _ Hcredit Hb Hj).
  rewrite (insertText_insert_fails _ _ _ (sent w) fs)
    by (unfold sent; cbn; now rewrite Hf).
  cbn. repeat split. unfold credit_of. now rewrite Hu.
Qed.

Lemma failed_insert_skips_debit_witness :
  credit_of (token jane_posts)
    (db (snd (textHandler jane_posts
                (mkWorld (db fixtures) [false; true] [])))) =
  Some 1000000.
Proof.
  apply (failed_insert_skips_debit jane_posts
           (mkWorld (db fixtures) [false; true] [])
           (Json.Obj [("text"%string, Json.Str "test text handler")])
           (mkTextDocument "test text handler")
           (fixture_user "Jane" 1000000) 1000000 []).
  - vm_compute. reflexivity.
  - reflexivity.
  - lia.
  - reflexivity.
  - reflexivity.
  - reflexivity.
Defined.

(** C9.  Once the credit check of a text submission has passed and the
    body has been decoded, the answer is 200 with the JSON document
    that holds the hash of the text, whatever happens to the two
    statements of [insertText]; when the insertion statement fails the
    failure is logged and nothing else is left of it. *)
Theorem failed_insert_still_200 :
  forall (r : Request) (w : world) (j : Json.value) (td : textDocument)
         (u : user_row) (c : Z),
    find_user (token r) (db w) = Some u -> u_credit u = Some c -> 0 < c ->
    Body r = Document j -> Unmarshal_textDocument j = Some td ->
    hd false (faults w) = false ->
    fst (textHandler r w) =
      mkResponse 200
        [("Content-Type", "application/json; charset=UTF-8")%string]
        (JSON (Json.Obj [("Hash"%string,
                          Json.Str (sha256String (Text td)))])) /\
    (forall fs, faults w = false :: true :: fs ->
       snd (textHandler r w) =
       mkWorld (db w) fs
         (logged w ++ [("Failed to insert text with hash = %s: %v"%string,
                        [sha256String (Text td)])])).
Proof.
  intros r w j td u c Hu Hc Hpos Hb Hj Hf.
  assert (Hcredit : userHasCredit (token r) w = (true, sent w)).
  { rewrite (userHasCredit_sent _ _ u c Hf Hu Hc).
    now apply Z.ltb_lt in Hpos as ->. }
  rewrite (textHandler_submits _ _ _ _ _ Hcredit Hb Hj).
  split; [reflexivity|].
  intros fs Hfs.
  rewrite (insertText_insert_fails _ _ _ (sent w) fs)
    by (unfold sent; cbn; now rewrite Hfs).
  reflexivity.
Qed.

Lemma failed_insert_still_200_witness :
  fst (textHandler jane_posts (mkWorld (db fixtures) [false; true] [])) =
    mkResponse 200
      [("Content-Type", "application/json; charset=UTF-8")%string]
      (JSON (Json.Obj [("Hash"%string,
                        Json.Str (sha256String "test text handler"))])) /\
  (forall fs, [false; true] = false :: true :: fs ->
     snd (textHandler jane_posts (mkWorld (db fixtures) [false; true] [])) =
     mkWorld (db fixtures) fs
       ([] ++ [("Failed to insert text with hash = %s: %v"%string,
                [sha256String "test text handler"])])).
Proof.
  apply (failed_insert_still_200 jane_posts
           (mkWorld (db fixtures) [false; true] [])
           (Json.Obj [("text"%string, Json.Str "test text handler")])
           (mkTextDocument "test text handler")
           (fixture_user "Jane" 1000000) 1000000).
  - vm_compute. reflexivity.
  - reflexivity.
  - lia.
  - reflexivity.
  - reflexivity.
  - reflexivity.
Defined.

Section RoundTrip.

(** A submission served through the router when no statement fails. *)
Lemma submission_served (r : Request) (w : world) (j : Json.value)
      (s : string) (u : user_row) (c : Z) :
  Method r = "POST"%string -> Path r = "/text"%string ->
  Body r = Document j ->
  Unmarshal_textDocument j = Some (mkTextDocument s) ->
  token r <> EmptyString -> find_user (token r) (db w) = Some u ->
  u_credit u = Some c -> 0 < c -> faults w = [] ->
  makeRouter r = Some (wrapHandler textHandler r) /\
  wrapHandler textHandler r w =
  (ok_json "Hash" (sha256String s),
   mkWorld (mkDatabase (map (debit_row (token r)) (user (db w)))
                       (inserted s (sha256String s) (db w)))
           [] (logged w)).
Proof.
  intros Hm Hp Hb Hj Hne Hu Hc Hpos Hf.
  split; [unfold makeRouter; now rewrite Hm, Hp|].
  rewrite (wrapHandler_accepts _ _ _ _
             (userIsAuthorized_accepts r w u Hne Hf Hu)).
  assert (Hcredit : userHasCredit (token r) w = (true, w)).
  { rewrite (userHasCredit_run _ _ u c Hf Hu Hc).
    now apply Z.ltb_lt in Hpos as ->. }
  rewrite (textHandler_submits _ _ _ _ _ Hcredit Hb Hj).
  cbn [Text]. now rewrite (insertText_run _ _ _ _ Hf).
Qed.

(** A hash lookup served through the router when no statement fails. *)
Lemma lookup_served (g : Request) (w : world) (h s : string)
      (v : user_row) (t : hash_text_row) :
  Method g = "GET"%string -> Path g = ("/text/" ++ h)%string ->
  segment h = true ->
  token g <> EmptyString -> find_user (token g) (db w) = Some v ->
  faults w = [] ->
  find_hash h (db w) = Some t -> ht_text t = Some s ->
  exists m : M Response,
    makeRouter g = Some m /\ m w = (ok_json "Text" s, w).
Proof.
  intros Hm Hp Hseg Hne Hv Hf Ht Hs.
  unfold makeRouter. rewrite Hm, Hp, (match_route_text_hash h Hseg).
  eexists. split; [reflexivity|].
  set (g' := mkRequest _ _ _ _ _).
  assert (Hauth : userIsAuthorized g' w = (true, w)).
  { rewrite (userIsAuthorized_headers g g' w eq_refl).
    now apply (userIsAuthorized_accepts g w v). }
  rewrite (wrapHandler_accepts _ _ _ _ Hauth).
  unfold textHashHandler. subst g'. unfold mux_Vars. cbn [Vars assoc].
  cbn [String.eqb Ascii.eqb Bool.eqb].
  destruct w as [d fs l]; cbn in *; subst fs.
  run_statements. now rewrite Ht, Hs.
Qed.

Lemma find_hash_inserted (text h : string) (d : database) :
  (forall t, find_hash h d = Some t -> ht_text t = Some text) ->
  exists t, find_hash h (mkDatabase (user d) (inserted text h d)) = Some t /\
            ht_hash t = h /\ ht_text t = Some text.
Proof.
  intros Hrow. unfold inserted.
  destruct (find_hash h d) as [t|] eqn:Ht.
  - exists t. destruct d as [us ts]. cbn in *. repeat split.
    + exact Ht.
    + unfold find_hash in Ht. apply find_some in Ht as [_ Ht].
      now apply String.eqb_eq.
    + now apply Hrow.
  - exists (mkHashText h (Some text)). unfold find_hash in *. cbn.
    rewrite find_app_last, Ht. cbn. now rewrite String.eqb_refl.
Qed.

End RoundTrip.

(** C1.  A POST /text whose body decodes to the text [s], sent with the
    token of a user row of positive credit, is answered 200 with a JSON
    document whose one member holds [hex.EncodeToString] of the SHA-256
    digest of the bytes of [s]: 64 characters, all of [0-9a-f].  When no
    statement sent to the database fails and the content table holds no
    other text under that hash, a GET /text/{hash} with the returned
    hash, sent next with the token of any user row, is answered 200
    with a JSON document whose one member holds exactly [s]. *)
Theorem submit_then_lookup :
  forall (r g : Request) (w : world) (j : Json.value) (s : string)
         (u v : user_row) (c : Z),
    Method r = "POST"%string -> Path r = "/text"%string ->
    Body r = Document j ->
    Unmarshal_textDocument j = Some (mkTextDocument s) ->
    token r <> EmptyString -> find_user (token r) (db w) = Some u ->
    u_credit u = Some c -> 0 < c ->
    faults w = [] ->
    (forall t, find_hash (sha256String s) (db w) = Some t ->
               ht_text t = Some s) ->
    Method g = "GET"%string ->
    Path g = ("/text/" ++ sha256String s)%string ->
    token g <> EmptyString -> find_user (token g) (db w) = Some v ->
    exists (m1 m2 : M Response) (w1 w2 : world),
      makeRouter r = Some m1 /\
      m1 w = (ok_json "Hash"
                (Hex.EncodeToString (Sha256.Sum (bytes_of_string s))), w1) /\
      String.length (Hex.EncodeToString (Sha256.Sum (bytes_of_string s)))
        = 64%nat /\
      all_chars lower_hex
        (Hex.EncodeToString (Sha256.Sum (bytes_of_string s))) = true /\
      makeRouter g = Some m2 /\
      m2 w1 = (ok_json "Text" s, w2).
Proof.
  intros r g w j s u v c Hm Hp Hb Hj Hne Hu Hc Hpos Hf Hrow Hgm Hgp Hgne Hv.
  destruct (submission_served r w j s u c Hm Hp Hb Hj Hne Hu Hc Hpos Hf)
    as [Hr1 Hrun1].
  set (w1 := mkWorld (mkDatabase (map (debit_row (token r)) (user (db w)))
                                 (inserted s (sha256String s) (db w)))
                     [] (logged w)) in *.
  destruct (find_hash_inserted s (sha256String s) (db w) Hrow)
    as [t [Ht [_ Hts]]].
  destruct (lookup_served g w1 (sha256String s) s
              (debit_row (token r) v) t Hgm Hgp
              (segment_sha256String s) Hgne) as [m2 [Hr2 Hrun2]].
  - subst w1. cbn [db]. rewrite find_user_debit.
    destruct (db w) as [us ts]. cbn in *. now rewrite Hv.
  - reflexivity.
  - exact Ht.
  - exact Hts.
  - exists (wrapHandler textHandler r), m2, w1, w1.
    split; [exact Hr1|]. split; [exact Hrun1|].
    split; [apply (sha256String_length s)|].
    split; [apply (sha256String_lower_hex s)|].
    split; [exact Hr2 | exact Hrun2].
Qed.

Lemma submit_then_lookup_witness :
  exists (m1 m2 : M Response) (w1 w2 : world),
    makeRouter jane_posts = Some m1 /\
    m1 fixtures =
      (ok_json "Hash"
         (Hex.EncodeToString
            (Sha256.Sum (bytes_of_string "test text handler"))), w1) /\
    String.length
      (Hex.EncodeToString (Sha256.Sum (bytes_of_string "test text handler")))
      = 64%nat /\
    all_chars lower_hex
      (Hex.EncodeToString (Sha256.Sum (bytes_of_string "test text handler")))
      = true /\
    makeRouter jane_gets = Some m2 /\
    m2 w1 = (ok_json "Text" "test text handler", w2).
Proof.
  apply (submit_then_lookup jane_posts jane_gets fixtures
           (Json.Obj [("text"%string, Json.Str "test text handler")])
           "test text handler"
           (fixture_user "Jane" 1000000) (fixture_user "Jane" 1000000)
           1000000).
  - reflexivity.
  - reflexivity.
  - reflexivity.
  - reflexivity.
  - vm_compute. discriminate.
  - vm_compute. reflexivity.
  - reflexivity.
  - lia.
  - reflexivity.
  - intros t Ht. vm_compute in Ht. discriminate.
  - reflexivity.
  - reflexivity.
  - vm_compute. discriminate.
  - vm_compute. reflexivity.
Defined.

Section Resubmission.

Lemma rows_of_inserted (text h : string) (d : database) :
  hash_primary_key d ->
  (forall t, find_hash h d = Some t -> ht_text t = Some text) ->
  rows_of h (mkDatabase (user d) (inserted text h d)) =
  [mkHashText h (Some text)].
Proof.
  intros Hpk Hrow. unfold rows_of, inserted, hash_primary_key in *.
  cbn [hash_text].
  destruct (find_hash h d) as [t|] eqn:Ht; unfold find_hash in Ht.
  - rewrite (filter_primary_key _ _ _ Hpk Ht).
    pose proof (Hrow t eq_refl) as Hs.
    apply find_some in Ht as [_ Hh]. apply String.eqb_eq in Hh.
    destruct t as [h' s']. cbn in *. now subst.
  - rewrite filter_app, (filter_none _ _ Ht). cbn.
    now rewrite String.eqb_refl.
Qed.

Lemma inserted_primary_key (text h : string) (d : database) :
  hash_primary_key d ->
  hash_primary_key (mkDatabase (user d) (inserted text h d)).
Proof.
  unfold hash_primary_key, inserted. cbn [hash_text]. intros Hpk.
  destruct (find_hash h d) as [t|] eqn:Ht; [exact Hpk|].
  now apply NoDup_map_app_last.
Qed.

(** Inserting again what [inserted] left changes nothing. *)
Lemma inserted_twice (text h : string) (us us' : list user_row)
      (ts : list hash_text_row) :
  inserted text h (mkDatabase us' (inserted text h (mkDatabase us ts))) =
  inserted text h (mkDatabase us ts).
Proof.
  unfold inserted at 1. unfold find_hash. cbn [hash_text].
  unfold inserted, find_hash. cbn [hash_text].
  destruct (find (fun t => (ht_hash t =? h)%string) ts) as [t|] eqn:Ht.
  - now rewrite Ht.
  - rewrite find_app_last, Ht. cbn. now rewrite String.eqb_refl.
Qed.

Lemma credit_of_debit (userID : string) (us : list user_row)
      (ts ts' : list hash_text_row) (c : Z) :
  credit_of userID (mkDatabase us ts) = Some c -> 0 < c ->
  credit_of userID (mkDatabase (map (debit_row userID) us) ts') =
  Some (c - 1).
Proof.
  unfold credit_of. rewrite find_user_debit.
  replace (find_user userID (mkDatabase us ts'))
    with (find_user userID (mkDatabase us ts)) by reflexivity.
  destruct (find_user userID (mkDatabase us ts)) as [u|] eqn:Hu;
    [|discriminate].
  intros Hc Hpos. cbn. unfold debit_row.
  assert (Hid : (u_user_id u =? userID)%string = true).
  { unfold find_user in Hu. now apply find_some in Hu as [_ Hu]. }
  rewrite Hid. cbn. rewrite Hc. cbn. f_equal. lia.
Qed.

End Resubmission.

(** C3.  Two POST /text requests whose bodies decode to the same text
    [s], each sent with the token of a user row whose credit is positive
    when the request is served, the second served after the first with
    no statement failing: both are answered 200 with the same hash, the
    second logs no error, the content table (whose hash column is a
    primary key) then has exactly one row under that hash, which holds
    [s], and each request lowers the credit of its sender by exactly
    one. *)
Theorem resubmission_is_idempotent :
  forall (r1 r2 : Request) (w : world) (j1 j2 : Json.value) (s : string)
         (u1 u2 : user_row) (c1 c2 : Z),
    Method r1 = "POST"%string -> Path r1 = "/text"%string ->
    Body r1 = Document j1 ->
    Unmarshal_textDocument j1 = Some (mkTextDocument s) ->
    Method r2 = "POST"%string -> Path r2 = "/text"%string ->
    Body r2 = Document j2 ->
    Unmarshal_textDocument j2 = Some (mkTextDocument s) ->
    faults w = [] -> hash_primary_key (db w) ->
    (forall t, find_hash (sha256String s) (db w) = Some t ->
               ht_text t = Some s) ->
    token r1 <> EmptyString -> find_user (token r1) (db w) = Some u1 ->
    u_credit u1 = Some c1 -> 0 < c1 ->
    let w1 := snd (wrapHandler textHandler r1 w) in
    token r2 <> EmptyString -> find_user (token r2) (db w1) = Some u2 ->
    u_credit u2 = Some c2 -> 0 < c2 ->
    let w2 := snd (wrapHandler textHandler r2 w1) in
    makeRouter r1 = Some (wrapHandler textHandler r1) /\
    makeRouter r2 = Some (wrapHandler textHandler r2) /\
    fst (wrapHandler textHandler r1 w) = ok_json "Hash" (sha256String s) /\
    fst (wrapHandler textHandler r2 w1) = ok_json "Hash" (sha256String s) /\
    logged w2 = logged w /\
    rows_of (sha256String s) (db w2) = [mkHashText (sha256String s) (Some s)] /\
    hash_text (db w2) = hash_text (db w1) /\
    credit_of (token r1) (db w1) = Some (c1 - 1) /\
    credit_of (token r2) (db w2) = Some (c2 - 1).
Proof.
  intros r1 r2 w j1 j2 s u1 u2 c1 c2 Hm1 Hp1 Hb1 Hj1 Hm2 Hp2 Hb2 Hj2
         Hf Hpk Hrow Hne1 Hu1 Hc1 Hpos1 w1 Hne2 Hu2 Hc2 Hpos2 w2.
  destruct (submission_served r1 w j1 s u1 c1 Hm1 Hp1 Hb1 Hj1 Hne1 Hu1 Hc1
              Hpos1 Hf) as [Hr1 Hrun1].
  subst w2 w1. rewrite Hrun1 in *. cbn [snd fst] in *.
  set (w1 := mkWorld _ _ _) in *.
  destruct (submission_served r2 w1 j2 s u2 c2 Hm2 Hp2 Hb2 Hj2 Hne2 Hu2 Hc2
              Hpos2 eq_refl) as [Hr2 Hrun2].
  rewrite Hrun2. cbn [snd fst db logged hash_text].
  destruct (db w) as [us ts] eqn:Hd. cbn [user] in *.
  assert (Htwice : inserted s (sha256String s) (db w1) =
                   inserted s (sha256String s) (mkDatabase us ts))
    by (subst w1; cbn [db]; apply inserted_twice).
  repeat (split; [first [assumption | reflexivity]|]).
  split; [|split; [|split]].
  - rewrite Htwice.
    exact (rows_of_inserted s (sha256String s) (mkDatabase us ts) Hpk Hrow).
  - exact Htwice.
  - subst w1. cbn [db]. apply (credit_of_debit _ _ ts _ c1); [|exact Hpos1].
    unfold credit_of. now rewrite Hu1.
  - destruct (db w1) as [us1 ts1] eqn:Hd1. cbn [user].
    apply (credit_of_debit _ _ ts1 _ c2); [|exact Hpos2].
    unfold credit_of. now rewrite Hu2.
Qed.

Lemma resubmission_is_idempotent_witness :
  rows_of (sha256String "test text handler")
    (db (snd (wrapHandler textHandler jane_posts
                (snd (wrapHandler textHandler jane_posts fixtures))))) =
  [mkHashText (sha256String "test text handler")
              (Some "test text handler"%string)].
Proof.
  assert (H := resubmission_is_idempotent jane_posts jane_posts fixtures
                 (Json.Obj [("text"%string, Json.Str "test text handler")])
                 (Json.Obj [("text"%string, Json.Str "test text handler")])
                 "test text handler"
                 (fixture_user "Jane" 1000000) (fixture_user "Jane" 999999)
                 1000000 999999
                 eq_refl eq_refl eq_refl eq_refl
                 eq_refl eq_refl eq_refl eq_refl eq_refl).
  assert (Hpk : hash_primary_key (db fixtures)) by constructor.
  assert (Hrow : forall t,
             find_hash (sha256String "test text handler") (db fixtures) =
             Some t -> ht_text t = Some "test text handler"%string)
    by (intros t Ht; vm_compute in Ht; discriminate).
  assert (Hne : token jane_posts <> EmptyString)
    by (vm_compute; discriminate).
  assert (Hu1 : find_user (token jane_posts) (db fixtures) =
                Some (fixture_user "Jane" 1000000))
    by (vm_compute; reflexivity).
  assert (Hu2 : find_user (token jane_posts)
                  (db (snd (wrapHandler textHandler jane_posts fixtures))) =
                Some (fixture_user "Jane" 999999))
    by (vm_compute; reflexivity).
  assert (Hpos1 : 0 < 1000000) by lia.
  assert (Hpos2 : 0 < 999999) by lia.
  exact (proj1 (proj2 (proj2 (proj2 (proj2 (proj2
           (H Hpk Hrow Hne Hu1 eq_refl Hpos1 Hne Hu2 eq_refl Hpos2))))))).
Defined.

Section Documents.

Lemma userHandler_200 (r : Request) (w : world) :
  StatusCode (fst (userHandler r w)) = 200 ->
  exists (u : user_row) (c : Z),
    find_user (token r) (db w) = Some u /\ u_credit u = Some c /\
    RBody (fst (userHandler r w)) =
    JSON (Json.Obj [("UserID"%string, Json.Str (token r));
                    ("Name"%string, Json.Str (u_name u));
                    ("Credit"%string, Json.Num (Json.Itoa c))]).
Proof.
  unfold userHandler, token.
  destruct w as [d [|[|] fs] l]; run_statements;
    try discriminate;
    (destruct (find_user _ d) as [u|] eqn:Hu;
     [destruct (u_credit u) as [c|] eqn:Hc|]); cbn;
    try discriminate; intros _; exists u, c; auto.
Qed.

Lemma textHandler_200 (r : Request) (w : world) :
  StatusCode (fst (textHandler r w)) = 200 ->
  exists (j : Json.value) (td : textDocument),
    Body r = Document j /\ Unmarshal_textDocument j = Some td /\
    RBody (fst (textHandler r w)) =
    JSON (Json.Obj [("Hash"%string, Json.Str (sha256String (Text td)))]).
Proof.
  unfold textHandler, bind, ret.
  destruct (userHasCredit _ w) as [[|] w1]; cbn [negb];
    [|cbn; discriminate].
  destruct (Body r) as [| |j]; try (cbn; discriminate).
  destruct (Unmarshal_textDocument j) as [td|] eqn:Hj;
    [|cbn; discriminate].
  intros _. exists j, td.
  split; [reflexivity|]. split; [exact Hj|].
  match goal with
  | |- context [insertText ?a ?b ?c w1] => destruct (insertText a b c w1)
  end.
  reflexivity.
Qed.

Lemma textHashHandler_200 (r : Request) (w : world) :
  StatusCode (fst (textHashHandler r w)) = 200 ->
  exists (t : hash_text_row) (s : string),
    find_hash (mux_Vars r "hash") (db w) = Some t /\ ht_text t = Some s /\
    RBody (fst (textHashHandler r w)) =
    JSON (Json.Obj [("Text"%string, Json.Str s)]).
Proof.
  unfold textHashHandler.
  destruct w as [d [|[|] fs] l]; run_statements;
    try discriminate;
    (destruct (find_hash _ d) as [t|] eqn:Ht;
     [destruct (ht_text t) as [s|] eqn:Hs|]); cbn;
    try discriminate; intros _; exists t, s; auto.
Qed.

(** What the gate lets through is what the handler answers. *)
Lemma wrapHandler_200 (handler : HandlerFunc) (r : Request) (w : world) :
  StatusCode (fst (wrapHandler handler r w)) = 200 ->
  exists w1, db w1 = db w /\
             wrapHandler handler r w = handler r w1.
Proof.
  unfold wrapHandler, bind.
  pose proof (userIsAuthorized_db r w) as Hdb.
  destruct (userIsAuthorized r w) as [[|] w1]; cbn in *;
    [|discriminate].
  intros _. now exists w1.
Qed.

End Documents.

(** C6, as the code has it.  Every response of status 200 served by the
    router carries a JSON object: on GET /user/me an object of three
    members, the first holding the caller's token, the second named
    [Name] and holding the name of the caller's user row, the third
    named [Credit] and holding its credit; on POST /text an object of
    one member, holding the hash of the submitted text; on GET
    /text/{hash} an object of one member, holding the text stored under
    the hash.  [Name] and [Credit] are the Go field names, untagged in
    the source; the names of the three tagged members are not part of
    this statement. *)
Theorem response_documents :
  forall (r : Request) (w : world) (m : M Response),
    makeRouter r = Some m -> StatusCode (fst (m w)) = 200 ->
    match match_route (Method r) (Path r) with
    | Some RouteUserMe =>
        exists (k : string) (u : user_row) (c : Z),
          find_user (token r) (db w) = Some u /\ u_credit u = Some c /\
          RBody (fst (m w)) =
          JSON (Json.Obj [(k, Json.Str (token r));
                          ("Name"%string, Json.Str (u_name u));
                          ("Credit"%string, Json.Num (Json.Itoa c))])
    | Some RouteText =>
        exists (k : string) (j : Json.value) (td : textDocument),
          Body r = Document j /\ Unmarshal_textDocument j = Some td /\
          RBody (fst (m w)) =
          JSON (Json.Obj [(k, Json.Str (sha256String (Text td)))])
    | Some (RouteTextHash h) =>
        exists (k : string) (t : hash_text_row) (s : string),
          find_hash h (db w) = Some t /\ ht_text t = Some s /\
          RBody (fst (m w)) = JSON (Json.Obj [(k, Json.Str s)])
    | None => False
    end.
Proof.
  intros r w m Hm H200. unfold makeRouter in Hm.
  destruct (match_route (Method r) (Path r)) as [[| |h]|];
    [| | |discriminate]; injection Hm as <-;
    destruct (wrapHandler_200 _ _ _ H200) as [w1 [Hdb Hrun]];
    rewrite Hrun in *.
  - destruct (userHandler_200 r w1 H200) as [u [c [Hu [Hc Hbody]]]].
    exists "UserID"%string, u, c. rewrite <- Hdb. auto.
  - destruct (textHandler_200 r w1 H200) as [j [td [Hb [Hj Hbody]]]].
    exists "Hash"%string, j, td. auto.
  - set (r' := mkRequest _ _ _ _ _) in *.
    destruct (textHashHandler_200 r' w1 H200) as [t [s [Ht [Hs Hbody]]]].
    exists "Text"%string, t, s. rewrite <- Hdb. auto.
Qed.

Lemma response_documents_witness :
  exists (k : string) (u : user_row) (c : Z),
    find_user (token jane_asks_me) (db fixtures) = Some u /\
    u_credit u = Some c /\
    RBody (fst (wrapHandler userHandler jane_asks_me fixtures)) =
    JSON (Json.Obj [(k, Json.Str (token jane_asks_me));
                    ("Name"%string, Json.Str (u_name u));
                    ("Credit"%string, Json.Num (Json.Itoa c))]).
Proof.
  assert (H200 : StatusCode (fst (wrapHandler userHandler jane_asks_me
                                    fixtures)) = 200)
    by (vm_compute; reflexivity).
  exact (response_documents jane_asks_me fixtures
           (wrapHandler userHandler jane_asks_me) eq_refl H200).
Defined.

(** C6, as the specification has it, fails: served from the fixtures of
    the tests, Jane's GET /user/me is answered 200 with the members
    [UserID], [Name] and [Credit], not [user_id], [name] and [credit];
    her POST /text with the member [Hash], not [hash]; and her GET
    /text/{hash} of the text just posted with the member [Text], not
    [text]. *)
Lemma response_field_names_counterexample :
  (StatusCode (fst (wrapHandler userHandler jane_asks_me fixtures)) = 200 /\
   keys (RBody (fst (wrapHandler userHandler jane_asks_me fixtures))) =
     ["UserID"; "Name"; "Credit"]%string /\
   keys (RBody (fst (wrapHandler userHandler jane_asks_me fixtures))) <>
     ["user_id"; "name"; "credit"]%string) /\
  (StatusCode (fst (wrapHandler textHandler jane_posts fixtures)) = 200 /\
   keys (RBody (fst (wrapHandler textHandler jane_posts fixtures))) =
     ["Hash"]%string /\
   keys (RBody (fst (wrapHandler textHandler jane_posts fixtures))) <>
     ["hash"]%string) /\
  (makeRouter jane_asks_me = Some (wrapHandler userHandler jane_asks_me) /\
   makeRouter jane_posts = Some (wrapHandler textHandler jane_posts)).
Proof.
  split; [|split].
  - split; [vm_compute; reflexivity|].
    split; [vm_compute; reflexivity | vm_compute; discriminate].
  - split; [vm_compute; reflexivity|].
    split; [vm_compute; reflexivity | vm_compute; discriminate].
  - split; vm_compute; reflexivity.
Qed.


(** ** Further properties of the handlers *)

Section Gate.

Lemma userIsAuthorized_fault (r : Request) (w : world) (fs : list bool) :
  token r <> EmptyString -> faults w = true :: fs ->
  userIsAuthorized r w =
  (false, mkWorld (db w) fs
            (logged w ++ [("Query to look up user failed: %v"%string, [])])).
Proof.
  unfold userIsAuthorized, token. intros Hne Hf.
  destruct (String.eqb_spec (Header_Get r "X-HashText-User-ID") "");
    [contradiction|].
  destruct w as [d fs' l]; cbn in *; subst fs'. reflexivity.
Qed.

Lemma userIsAuthorized_sent (r : Request) (w : world) :
  token r <> EmptyString -> hd false (faults w) = false ->
  userIsAuthorized r w =
  (match find_user (token r) (db w) with Some _ => true | None => false end,
   sent w).
Proof.
  unfold userIsAuthorized, token, sent. intros Hne Hf.
  destruct (String.eqb_spec (Header_Get r "X-HashText-User-ID") "");
    [contradiction|].
  destruct w as [d [|f fs] l]; cbn in *; [|subst f]; run_statements;
    destruct (find_user _ d); reflexivity.
Qed.

End Gate.

(** X1.  Every hash [sha256String] returns is 64 characters of [0-9a-f],
    so it is one path segment: the router gives GET /text/ followed by
    the hash of any text to the hash lookup, with that hash as the route
    variable. *)
Theorem returned_hash_is_routable :
  forall s : string,
    String.length (sha256String s) = 64%nat /\
    all_chars lower_hex (sha256String s) = true /\
    match_route "GET" ("/text/" ++ sha256String s) =
      Some (RouteTextHash (sha256String s)).
Proof.
  intros s. split; [apply sha256String_length|].
  split; [apply sha256String_lower_hex|].
  apply match_route_text_hash, segment_sha256String.
Qed.

(** X2.  The gate fails closed: when the statement that looks the token
    up fails, the request is answered 401 with no body whatever the
    wrapped handler is, the failure is logged, and the database is left
    as it was. *)
Theorem gate_fails_closed :
  forall (handler : HandlerFunc) (r : Request) (w : world) (fs : list bool),
    token r <> EmptyString -> faults w = true :: fs ->
    wrapHandler handler r w =
    (mkResponse 401 [] Empty,
     mkWorld (db w) fs
       (logged w ++ [("Query to look up user failed: %v"%string, [])])).
Proof.
  intros handler r w fs Hne Hf.
  rewrite wrapHandler_refuses;
    now rewrite (userIsAuthorized_fault r w fs Hne Hf).
Qed.

Lemma gate_fails_closed_witness :
  wrapHandler textHandler jane_posts (mkWorld (db fixtures) [true] []) =
  (mkResponse 401 [] Empty,
   mkWorld (db fixtures) []
     ([] ++ [("Query to look up user failed: %v"%string, [])])).
Proof.
  assert (Hne : token jane_posts <> EmptyString)
    by (vm_compute; discriminate).
  exact (gate_fails_closed textHandler jane_posts
           (mkWorld (db fixtures) [true] []) [] Hne eq_refl).
Defined.

(** X3.  The gate sends no statement for an empty or absent header (the
    world is left untouched) and exactly one statement otherwise; it
    never writes to the database. *)
Theorem gate_sends_one_statement :
  forall (r : Request) (w : world),
    (token r = EmptyString -> userIsAuthorized r w = (false, w)) /\
    (token r <> EmptyString ->
     faults (snd (userIsAuthorized r w)) = tl (faults w)) /\
    db (snd (userIsAuthorized r w)) = db w.
Proof.
  intros r w. split; [|split].
  - unfold userIsAuthorized, token. now intros ->.
  - intros Hne. destruct (faults w) as [|[|] fs] eqn:Hf.
    + rewrite userIsAuthorized_sent; [unfold sent; cbn; now rewrite Hf
                                     | exact Hne | now rewrite Hf].
    + now rewrite (userIsAuthorized_fault r w fs Hne Hf).
    + rewrite userIsAuthorized_sent; [unfold sent; cbn; now rewrite Hf
                                     | exact Hne | now rewrite Hf].
  - apply userIsAuthorized_db.
Qed.

(** X4.  When its statement does not fail, the gate accepts a request
    exactly when the header is not empty and some row of the user table
    has it as its user_id. *)
Theorem gate_accepts_iff_user :
  forall (r : Request) (w : world),
    hd false (faults w) = false ->
    (fst (userIsAuthorized r w) = true <->
     token r <> EmptyString /\
     exists u, find_user (token r) (db w) = Some u).
Proof.
  intros r w Hf. split.
  - intros Hyes.
    destruct (String.eqb_spec (token r) "") as [He|Hne].
    + rewrite userIsAuthorized_refuses in Hyes by (now left). discriminate.
    + split; [exact Hne|].
      rewrite (userIsAuthorized_sent r w Hne Hf) in Hyes. cbn in Hyes.
      destruct (find_user (token r) (db w)) as [u|]; [now exists u|].
      discriminate.
  - intros [Hne [u Hu]].
    rewrite (userIsAuthorized_sent r w Hne Hf). cbn. now rewrite Hu.
Qed.

Lemma gate_accepts_iff_user_witness :
  fst (userIsAuthorized jane_posts fixtures) = true <->
  token jane_posts <> EmptyString /\
  exists u, find_user (token jane_posts) (db fixtures) = Some u.
Proof.
  exact (gate_accepts_iff_user jane_posts fixtures eq_refl).
Defined.

Section Lookups.

(** A request that passes the gate with no statement pending to fail. *)
Lemma gate_passes (handler : HandlerFunc) (r : Request) (w : world)
      (u : user_row) :
  token r <> EmptyString -> faults w = [] ->
  find_user (token r) (db w) = Some u ->
  wrapHandler handler r w = handler r w.
Proof.
  intros Hne Hf Hu.
  apply wrapHandler_accepts. now apply (userIsAuthorized_accepts r w u).
Qed.

Lemma userHandler_run (r : Request) (w : world) :
  faults w = [] ->
  userHandler r w =
  match find_user (token r) (db w) with
  | None => (mkResponse 404 [] Empty, w)
  | Some u =>
      match u_credit u with
      | Some c =>
          (sendJSONResponse
             (Json.Obj [("UserID"%string, Json.Str (token r));
                        ("Name"%string, Json.Str (u_name u));
                        ("Credit"%string, Json.Num (Json.Itoa c))]), w)
      | None =>
          (mkResponse 500 [] Empty,
           mkWorld (db w) []
             (logged w ++ [("Query to look up user failed: %v"%string, [])]))
      end
  end.
Proof.
  intros Hf. unfold userHandler, token.
  destruct w as [d fs l]; cbn in *; subst fs. run_statements.
  destruct (find_user _ d) as [u|]; [|reflexivity].
  destruct (u_credit u); reflexivity.
Qed.

Lemma textHashHandler_run (r : Request) (w : world) :
  faults w = [] ->
  textHashHandler r w =
  match find_hash (mux_Vars r "hash") (db w) with
  | None => (mkResponse 404 [] Empty, w)
  | Some t =>
      match ht_text t with
      | Some s => (ok_json "Text" s, w)
      | None =>
          (mkResponse 500 [] Empty,
           mkWorld (db w) []
             (logged w ++
              [("Query to look up text by hash failed: %v"%string, [])]))
      end
  end.
Proof.
  intros Hf. unfold textHashHandler.
  destruct w as [d fs l]; cbn in *; subst fs. run_statements.
  destruct (find_hash _ d) as [t|]; [|reflexivity].
  destruct (ht_text t); reflexivity.
Qed.

End Lookups.

(** X5.  GET /user/me, sent with the token of a user row and served with
    no statement failing, is answered 200 with the caller's own row: the
    token, the name and the credit of the first row that has the token
    as its user_id; when that credit is NULL the answer is 500 with no
    body.  The database is left as it was. *)
Theorem user_me_returns_own_row :
  forall (r : Request) (w : world) (u : user_row),
    Method r = "GET"%string -> Path r = "/user/me"%string ->
    token r <> EmptyString -> faults w = [] ->
    find_user (token r) (db w) = Some u ->
    exists m : M Response,
      makeRouter r = Some m /\
      fst (m w) =
        match u_credit u with
        | Some c =>
            mkResponse 200
              [("Content-Type", "application/json; charset=UTF-8")%string]
              (JSON (Json.Obj [("UserID"%string, Json.Str (token r));
                               ("Name"%string, Json.Str (u_name u));
                               ("Credit"%string, Json.Num (Json.Itoa c))]))
        | None => mkResponse 500 [] Empty
        end /\
      db (snd (m w)) = db w.
Proof.
  intros r w u Hm Hp Hne Hf Hu.
  exists (wrapHandler userHandler r).
  split; [unfold makeRouter; now rewrite Hm, Hp|].
  rewrite (gate_passes _ r w u Hne Hf Hu), (userHandler_run r w Hf), Hu.
  destruct (u_credit u); split; reflexivity.
Qed.

Lemma user_me_returns_own_row_witness :
  exists m : M Response,
    makeRouter jane_asks_me = Some m /\
    fst (m fixtures) =
      match u_credit (fixture_user "Jane" 1000000) with
      | Some c =>
          mkResponse 200
            [("Content-Type", "application/json; charset=UTF-8")%string]
            (JSON (Json.Obj
                     [("UserID"%string, Json.Str (token jane_asks_me));
                      ("Name"%string,
                       Json.Str (u_name (fixture_user "Jane" 1000000)));
                      ("Credit"%string, Json.Num (Json.Itoa c))]))
      | None => mkResponse 500 [] Empty
      end /\
    db (snd (m fixtures)) = db fixtures.
Proof.
  assert (Hne : token jane_asks_me <> EmptyString)
    by (vm_compute; discriminate).
  assert (Hu : find_user (token jane_asks_me) (db fixtures) =
               Some (fixture_user "Jane" 1000000))
    by (vm_compute; reflexivity).
  exact (user_me_returns_own_row jane_asks_me fixtures
           (fixture_user "Jane" 1000000) eq_refl eq_refl Hne eq_refl Hu).
Defined.

(** X6.  Served through the router with no statement failing, GET
    /user/me is never answered 404: the NotFound branch of
    [userHandler] is only reached when the handler is called without
    the gate. *)
Theorem user_me_is_never_404 :
  forall (r : Request) (w : world) (m : M Response),
    match_route (Method r) (Path r) = Some RouteUserMe ->
    makeRouter r = Some m -> faults w = [] ->
    StatusCode (fst (m w)) <> 404 /\
    (forall r', find_user (token r') (db w) = None ->
                fst (userHandler r' w) = mkResponse 404 [] Empty).
Proof.
  intros r w m Hroute Hm Hf. split.
  - unfold makeRouter in Hm. rewrite Hroute in Hm. injection Hm as <-.
    destruct (String.eqb_spec (token r) "") as [He|Hne].
    + rewrite wrapHandler_refuses
        by (apply userIsAuthorized_refuses; now left).
      cbn. discriminate.
    + destruct (find_user (token r) (db w)) as [u|] eqn:Hu.
      * rewrite (gate_passes _ r w u Hne Hf Hu), (userHandler_run r w Hf), Hu.
        destruct (u_credit u); cbn; discriminate.
      * rewrite wrapHandler_refuses
          by (apply userIsAuthorized_refuses; now right).
        cbn. discriminate.
  - intros r' Hnone. now rewrite (userHandler_run r' w Hf), Hnone.
Qed.

Lemma user_me_is_never_404_witness :
  StatusCode (fst (wrapHandler userHandler foo_asks_me fixtures)) <> 404 /\
  (forall r', find_user (token r') (db fixtures) = None ->
              fst (userHandler r' fixtures) = mkResponse 404 [] Empty).
Proof.
  exact (user_me_is_never_404 foo_asks_me fixtures
           (wrapHandler userHandler foo_asks_me) eq_refl eq_refl eq_refl).
Defined.

(** X7.  GET /text/{h}, sent with the token of any user row and served
    with no statement failing, is answered by the first row of the
    content table whose hash is exactly [h]: 200 with its text, 500 with
    no body when that text is NULL, and 404 with no body when there is
    no such row.  [h] is any path segment, and the database is left as
    it was. *)
Theorem hash_lookup_answers :
  forall (g : Request) (w : world) (h : string) (v : user_row),
    Method g = "GET"%string -> Path g = ("/text/" ++ h)%string ->
    segment h = true ->
    token g <> EmptyString -> find_user (token g) (db w) = Some v ->
    faults w = [] ->
    exists m : M Response,
      makeRouter g = Some m /\
      fst (m w) =
        match find_hash h (db w) with
        | None => mkResponse 404 [] Empty
        | Some t =>
            match ht_text t with
            | Some s =>
                mkResponse 200
                  [("Content-Type",
                    "application/json; charset=UTF-8")%string]
                  (JSON (Json.Obj [("Text"%string, Json.Str s)]))
            | None => mkResponse 500 [] Empty
            end
        end /\
      db (snd (m w)) = db w.
Proof.
  intros g w h v Hm Hp Hseg Hne Hv Hf.
  unfold makeRouter. rewrite Hm, Hp, (match_route_text_hash h Hseg).
  eexists. split; [reflexivity|].
  set (g' := mkRequest _ _ _ _ _).
  assert (Hpass : wrapHandler textHashHandler g' w = textHashHandler g' w)
    by (now apply (gate_passes _ g' w v)).
  rewrite Hpass, (textHashHandler_run g' w Hf).
  replace (mux_Vars g' "hash") with h by reflexivity.
  destruct (find_hash h (db w)) as [t|]; [|split; reflexivity].
  destruct (ht_text t); split; reflexivity.
Qed.

Lemma hash_lookup_answers_witness :
  exists m : M Response,
    makeRouter (request "GET" ("/text/" ++ "does-not-exist") jane Malformed)
      = Some m /\
    fst (m fixtures) =
      match find_hash "does-not-exist" (db fixtures) with
      | None => mkResponse 404 [] Empty
      | Some t =>
          match ht_text t with
          | Some s =>
              mkResponse 200
                [("Content-Type", "application/json; charset=UTF-8")%string]
                (JSON (Json.Obj [("Text"%string, Json.Str s)]))
          | None => mkResponse 500 [] Empty
          end
      end /\
    db (snd (m fixtures)) = db fixtures.
Proof.
  assert (Hne : token (request "GET" ("/text/" ++ "does-not-exist") jane
                               Malformed) <> EmptyString)
    by (vm_compute; discriminate).
  assert (Hu : find_user
                 (token (request "GET" ("/text/" ++ "does-not-exist") jane
                                 Malformed)) (db fixtures) =
               Some (fixture_user "Jane" 1000000))
    by (vm_compute; reflexivity).
  exact (hash_lookup_answers
           (request "GET" ("/text/" ++ "does-not-exist") jane Malformed)
           fixtures "does-not-exist" (fixture_user "Jane" 1000000)
           eq_refl eq_refl eq_refl Hne Hu eq_refl).
Defined.


Section Decoding.

Lemma Unmarshal_members_spec (members : list (string * Json.value))
      (td : textDocument) (failed : bool) :
  Unmarshal_members members td failed =
  if (failed || existsb wrong_type members)%bool then None
  else Some (mkTextDocument (last_stored members (Text td))).
Proof.
  revert td failed.
  induction members as [|[key v] rest IH]; intros td failed.
  - cbn. rewrite orb_false_r. destruct failed; [reflexivity|].
    now destruct td.
  - assert (Hlast : forall start,
              last_stored ((key, v) :: rest) start =
              last_stored rest (match stored (key, v) with
                                | Some s => s
                                | None => start
                                end)) by reflexivity.
    rewrite Hlast. cbn [Unmarshal_members existsb].
    unfold wrong_type at 1, stored. cbn [fst snd].
    destruct (Json.key_matches (Json.field_name "Text" tag_Text) key).
    + destruct v; rewrite IH; cbn [andb orb Text];
        rewrite ?orb_true_r, ?orb_false_r; reflexivity.
    + rewrite IH. reflexivity.
Qed.

End Decoding.

(** What [json.Unmarshal] makes of a JSON value for a
    [textDocument]: [null] and an object none of whose matching members
    is of a wrong type decode, to the last string a matching member
    holds and to the empty text when there is none; an object with a
    matching member that is a number, a boolean, an array or an object
    is an error, and so is every value that is neither an object nor
    [null]. *)
Lemma Unmarshal_textDocument_spec :
  forall j : Json.value,
    Unmarshal_textDocument j =
    match j with
    | Json.Null => Some (mkTextDocument "")
    | Json.Obj members =>
        if existsb wrong_type members then None
        else Some (mkTextDocument (last_stored members ""))
    | _ => None
    end.
Proof.
  intros [ | | | | |members]; try reflexivity.
  unfold Unmarshal_textDocument. now rewrite Unmarshal_members_spec.
Qed.

(** X8.  The member that carries the text is found whatever the case of
    the letters of its key, and the last such member wins: an object
    that ends with a member whose key is [text] in any case and whose
    value is the string [s] decodes to [s], provided no member before
    it is of a wrong type. *)
Theorem text_key_is_case_insensitive :
  forall (members : list (string * Json.value)) (key s : string),
    Json.fold key = "TEXT"%string ->
    existsb wrong_type members = false ->
    Unmarshal_textDocument (Json.Obj (members ++ [(key, Json.Str s)])) =
    Some (mkTextDocument s).
Proof.
  intros members key s Hkey Hok.
  unfold Unmarshal_textDocument. rewrite Unmarshal_members_spec.
  cbn [orb Text].
  assert (Hm : Json.key_matches (Json.field_name "Text" tag_Text) key = true).
  { unfold Json.key_matches. rewrite Hkey. cbn. apply orb_true_r. }
  rewrite existsb_app, Hok. cbn [existsb orb]. unfold wrong_type at 1.
  cbn [fst snd]. rewrite andb_false_r. cbn [orb].
  unfold last_stored. rewrite fold_left_app. cbn [fold_left].
  unfold stored. cbn [fst snd]. now rewrite Hm.
Qed.

Lemma text_key_is_case_insensitive_witness :
  Unmarshal_textDocument
    (Json.Obj ([("Text"%string, Json.Str "old"); ("other"%string, Json.Num "1")]
               ++ [("tExT"%string, Json.Str "new")])) =
  Some (mkTextDocument "new").
Proof.
  exact (text_key_is_case_insensitive
           [("Text"%string, Json.Str "old"); ("other"%string, Json.Num "1")]
           "tExT" "new" eq_refl eq_refl).
Defined.

(** The document [json.Marshal] writes for a [textDocument] is read
    back by [json.Unmarshal] as the same [textDocument], although its
    member is named after the Go field. *)
Lemma textDocument_round_trip :
  forall td : textDocument,
    Unmarshal_textDocument (Marshal_textDocument td) = Some td.
Proof. intros [s]. reflexivity. Qed.


Section Bodies.

Lemma key_not_text (key : string) :
  Json.fold key <> "TEXT"%string ->
  Json.key_matches (Json.field_name "Text" tag_Text) key = false.
Proof.
  intros Hkey. unfold Json.key_matches.
  replace (Json.field_name "Text" tag_Text) with "Text"%string
    by reflexivity.
  apply orb_false_iff. split.
  - apply String.eqb_neq. intros <-. now apply Hkey.
  - apply String.eqb_neq. intros H. apply Hkey. now rewrite <- H.
Qed.

Lemma no_text_member (members : list (string * Json.value)) :
  (forall k v, In (k, v) members -> Json.fold k <> "TEXT"%string) ->
  Unmarshal_textDocument (Json.Obj members) = Some (mkTextDocument "").
Proof.
  intros Hkeys. rewrite Unmarshal_textDocument_spec.
  assert (H : existsb wrong_type members = false /\
              forall start, last_stored members start = start).
  { induction members as [|[k v] rest IH]; [split; reflexivity|].
    destruct IH as [IH1 IH2].
    { intros k' v' Hin. apply (Hkeys k' v'). now right. }
    pose proof (key_not_text k (Hkeys k v (or_introl eq_refl))) as Hk.
    split.
    - cbn [existsb]. unfold wrong_type at 1. cbn [fst]. now rewrite Hk, IH1.
    - intros start. unfold last_stored in *. cbn [fold_left].
      unfold stored at 2. cbn [fst]. rewrite Hk. apply IH2. }
  destruct H as [-> ->]. reflexivity.
Qed.

(** [textHandler] once the credit lookup has shown a positive credit. *)
Lemma textHandler_with_credit (r : Request) (w : world) (u : user_row)
      (c : Z) :
  find_user (token r) (db w) = Some u -> u_credit u = Some c -> 0 < c ->
  hd false (faults w) = false ->
  textHandler r w =
  match Body r with
  | Unreadable =>
      (mkResponse 500 [] Empty,
       mkWorld (db w) (tl (faults w))
         (logged w ++ [("Failed to read the request body: %v"%string, [])]))
  | Malformed => (bad_request, sent w)
  | Document j =>
      match Unmarshal_textDocument j with
      | None => (bad_request, sent w)
      | Some td =>
          (ok_json "Hash" (sha256String (Text td)),
           snd (insertText (Text td) (sha256String (Text td)) (token r)
                           (sent w)))
      end
  end.
Proof.
  intros Hu Hc Hpos Hf.
  assert (Hcredit : userHasCredit (token r) w = (true, sent w)).
  { rewrite (userHasCredit_sent _ _ u c Hf Hu Hc).
    now apply Z.ltb_lt in Hpos as ->. }
  destruct (Body r) as [| |j] eqn:Hb.
  - unfold textHandler, token in *. unfold bind at 1. rewrite Hcredit, Hb.
    reflexivity.
  - unfold textHandler, token in *. unfold bind at 1. rewrite Hcredit, Hb.
    reflexivity.
  - destruct (Unmarshal_textDocument j) as [td|] eqn:Hj.
    + apply (textHandler_submits r w (sent w) j td Hcredit Hb Hj).
    + unfold textHandler, token in *. unfold bind at 1.
      rewrite Hcredit, Hb, Hj. reflexivity.
Qed.

Lemma insertText_debit_fails (text hash userID : string) (w : world)
      (fs : list bool) :
  faults w = false :: true :: fs ->
  insertText text hash userID w =
  (tt, mkWorld (mkDatabase (user (db w)) (inserted text hash (db w))) fs
         (logged w ++
          [("Failed to debit user with user_id = %s: %v"%string, [userID])])).
Proof.
  intros Hf. destruct w as [[us ts] fs' l]; cbn in Hf; subst fs'.
  unfold insertText, inserted, find_hash. run_statements.
  destruct (find _ ts); reflexivity.
Qed.

End Bodies.

(** X9.  A caller with positive credit whose body cannot be used is
    not charged: a body that is not a JSON text, or a JSON text that
    does not decode to a [textDocument], is answered 400 with the
    text/plain message, and a body that cannot be read is answered 500
    with no body and logged.  In both cases the credit lookup is the
    only statement sent and the database is left as it was. *)
Theorem unusable_body_is_not_charged :
  forall (r : Request) (w : world) (u : user_row) (c : Z),
    find_user (token r) (db w) = Some u -> u_credit u = Some c -> 0 < c ->
    hd false (faults w) = false ->
    (Body r = Malformed \/
     (exists j, Body r = Document j /\ Unmarshal_textDocument j = None) ->
     textHandler r w =
     (mkResponse 400 [("Content-Type", "text/plain; charset=UTF-8")%string]
                 (Plain "Could not decode the request body as JSON"),
      mkWorld (db w) (tl (faults w)) (logged w))) /\
    (Body r = Unreadable ->
     textHandler r w =
     (mkResponse 500 [] Empty,
      mkWorld (db w) (tl (faults w))
        (logged w ++ [("Failed to read the request body: %v"%string, [])]))).
Proof.
  intros r w u c Hu Hc Hpos Hf.
  rewrite (textHandler_with_credit r w u c Hu Hc Hpos Hf).
  split.
  - intros [->|[j [-> ->]]]; reflexivity.
  - now intros ->.
Qed.

Lemma unusable_body_is_not_charged_witness :
  (Body (request "POST" "/text" jane (Document (Json.Str "x"))) = Malformed \/
   (exists j, Body (request "POST" "/text" jane (Document (Json.Str "x")))
              = Document j /\ Unmarshal_textDocument j = None) ->
   textHandler (request "POST" "/text" jane (Document (Json.Str "x")))
               fixtures =
   (mkResponse 400 [("Content-Type", "text/plain; charset=UTF-8")%string]
               (Plain "Could not decode the request body as JSON"),
    mkWorld (db fixtures) (tl (faults fixtures)) (logged fixtures))) /\
  (Body (request "POST" "/text" jane (Document (Json.Str "x"))) = Unreadable ->
   textHandler (request "POST" "/text" jane (Document (Json.Str "x")))
               fixtures =
   (mkResponse 500 [] Empty,
    mkWorld (db fixtures) (tl (faults fixtures))
      (logged fixtures ++
       [("Failed to read the request body: %v"%string, [])]))).
Proof.
  assert (Hu : find_user
                 (token (request "POST" "/text" jane
                                 (Document (Json.Str "x")))) (db fixtures) =
               Some (fixture_user "Jane" 1000000))
    by (vm_compute; reflexivity).
  assert (Hpos : 0 < 1000000) by lia.
  exact (unusable_body_is_not_charged
           (request "POST" "/text" jane (Document (Json.Str "x")))
           fixtures (fixture_user "Jane" 1000000) 1000000
           Hu eq_refl Hpos eq_refl).
Defined.

(** X10.  The two statements of a submission are independent: when the
    insertion succeeds and the debit statement fails, the answer is
    still 200 with the hash, the row stays in the content table, the
    user table is left as it was (the submission is not charged), and
    the failure is logged with the caller's token. *)
Theorem failed_debit_keeps_the_text :
  forall (r : Request) (w : world) (j : Json.value) (td : textDocument)
         (u : user_row) (c : Z) (fs : list bool),
    find_user (token r) (db w) = Some u -> u_credit u = Some c -> 0 < c ->
    Body r = Document j -> Unmarshal_textDocument j = Some td ->
    faults w = false :: false :: true :: fs ->
    textHandler r w =
    (mkResponse 200
       [("Content-Type", "application/json; charset=UTF-8")%string]
       (JSON (Json.Obj [("Hash"%string, Json.Str (sha256String (Text td)))])),
     mkWorld (mkDatabase (user (db w))
                         (inserted (Text td) (sha256String (Text td)) (db w)))
             fs
             (logged w ++
              [("Failed to debit user with user_id = %s: %v"%string,
                [token r])])).
Proof.
  intros r w j td u c fs Hu Hc Hpos Hb Hj Hf.
  rewrite (textHandler_with_credit r w u c Hu Hc Hpos)
    by (now rewrite Hf).
  rewrite Hb, Hj. unfold ok_json. f_equal.
  rewrite (insertText_debit_fails _ _ _ (sent w) fs)
    by (unfold sent; cbn; now rewrite Hf).
  reflexivity.
Qed.

Lemma failed_debit_keeps_the_text_witness :
  textHandler jane_posts (mkWorld (db fixtures) [false; false; true] []) =
  (mkResponse 200
     [("Content-Type", "application/json; charset=UTF-8")%string]
     (JSON (Json.Obj
              [("Hash"%string,
                Json.Str (sha256String
                            (Text (mkTextDocument "test text handler"))))])),
   mkWorld (mkDatabase
              (user (db (mkWorld (db fixtures) [false; false; true] [])))
              (inserted (Text (mkTextDocument "test text handler"))
                 (sha256String (Text (mkTextDocument "test text handler")))
                 (db (mkWorld (db fixtures) [false; false; true] []))))
           []
           (logged (mkWorld (db fixtures) [false; false; true] []) ++
            [("Failed to debit user with user_id = %s: %v"%string,
              [token jane_posts])])).
Proof.
  assert (Hu : find_user (token jane_posts)
                 (db (mkWorld (db fixtures) [false; false; true] [])) =
               Some (fixture_user "Jane" 1000000))
    by (vm_compute; reflexivity).
  assert (Hpos : 0 < 1000000) by lia.
  exact (failed_debit_keeps_the_text jane_posts
           (mkWorld (db fixtures) [false; false; true] [])
           (Json.Obj [("text"%string, Json.Str "test text handler")])
           (mkTextDocument "test text handler")
           (fixture_user "Jane" 1000000) 1000000 []
           Hu eq_refl Hpos eq_refl eq_refl eq_refl).
Defined.

(** X11.  A body without a text is a submission of the empty text: when
    the body is [null] or an object with no member whose key is [text]
    in any case, a caller with positive credit is answered 200 with the
    hash of the empty string, and, no statement failing, that hash is
    stored with the empty text and the caller is charged. *)
Theorem missing_text_is_the_empty_text :
  forall (r : Request) (w : world) (u : user_row) (c : Z)
         (members : list (string * Json.value)),
    find_user (token r) (db w) = Some u -> u_credit u = Some c -> 0 < c ->
    faults w = [] ->
    Body r = Document Json.Null \/
    (Body r = Document (Json.Obj members) /\
     forall k v, In (k, v) members -> Json.fold k <> "TEXT"%string) ->
    textHandler r w =
    (mkResponse 200
       [("Content-Type", "application/json; charset=UTF-8")%string]
       (JSON (Json.Obj [("Hash"%string, Json.Str (sha256String ""))])),
     mkWorld (mkDatabase (map (debit_row (token r)) (user (db w)))
                         (inserted "" (sha256String "") (db w)))
             [] (logged w)).
Proof.
  intros r w u c members Hu Hc Hpos Hf Hbody.
  rewrite (textHandler_with_credit r w u c Hu Hc Hpos)
    by (now rewrite Hf).
  assert (Hsent : sent w = w)
    by (destruct w as [d fs l]; cbn in *; now subst fs).
  assert (Hrun :
    forall j, Body r = Document j ->
              Unmarshal_textDocument j = Some (mkTextDocument "") ->
              match Body r with
              | Unreadable =>
                  (mkResponse 500 [] Empty,
                   mkWorld (db w) (tl (faults w))
                     (logged w ++
                      [("Failed to read the request body: %v"%string, [])]))
              | Malformed => (bad_request, sent w)
              | Document j =>
                  match Unmarshal_textDocument j with
                  | None => (bad_request, sent w)
                  | Some td =>
                      (ok_json "Hash" (sha256String (Text td)),
                       snd (insertText (Text td) (sha256String (Text td))
                                       (token r) (sent w)))
                  end
              end =
              (ok_json "Hash" (sha256String ""),
               mkWorld (mkDatabase (map (debit_row (token r)) (user (db w)))
                                   (inserted "" (sha256String "") (db w)))
                       [] (logged w))).
  { intros j -> ->. cbn [Text]. rewrite Hsent.
    now rewrite (insertText_run _ _ _ _ Hf). }
  destruct Hbody as [Hb|[Hb Hkeys]].
  - now apply (Hrun Json.Null).
  - apply (Hrun (Json.Obj members) Hb). now apply no_text_member.
Qed.

Lemma missing_text_is_the_empty_text_witness :
  fst (textHandler (request "POST" "/text" jane
                            (Document (Json.Obj [("body"%string,
                                                  Json.Str "x")])))
                   fixtures) =
  mkResponse 200
    [("Content-Type", "application/json; charset=UTF-8")%string]
    (JSON (Json.Obj [("Hash"%string, Json.Str (sha256String ""))])).
Proof.
  assert (Hu : find_user
                 (token (request "POST" "/text" jane
                           (Document (Json.Obj [("body"%string,
                                                 Json.Str "x")]))))
                 (db fixtures) = Some (fixture_user "Jane" 1000000))
    by (vm_compute; reflexivity).
  assert (Hpos : 0 < 1000000) by lia.
  assert (Hkeys : forall k v,
             In (k, v) [("body"%string, Json.Str "x")] ->
             Json.fold k <> "TEXT"%string).
  { intros k v [H|[]]. injection H as <- _. vm_compute. discriminate. }
  exact (f_equal fst
           (missing_text_is_the_empty_text
              (request "POST" "/text" jane
                       (Document (Json.Obj [("body"%string, Json.Str "x")])))
              fixtures (fixture_user "Jane" 1000000) 1000000
              [("body"%string, Json.Str "x")]
              Hu eq_refl Hpos eq_refl (or_intror (conj eq_refl Hkeys)))).
Defined.


Section Steps.

Lemma userHandler_db (r : Request) (w : world) :
  db (snd (userHandler r w)) = db w.
Proof.
  unfold userHandler.
  destruct w as [d [|[|] fs] l]; run_statements; try reflexivity;
    (destruct (find_user _ d) as [u|]; [destruct (u_credit u)|]);
    reflexivity.
Qed.

Lemma textHashHandler_db (r : Request) (w : world) :
  db (snd (textHashHandler r w)) = db w.
Proof.
  unfold textHashHandler.
  destruct w as [d [|[|] fs] l]; run_statements; try reflexivity;
    (destruct (find_hash _ d) as [t|]; [destruct (ht_text t)|]);
    reflexivity.
Qed.

(** The credit lookup says yes only to a row of positive credit. *)
Lemma userHasCredit_yes (userID : string) (w : world) :
  fst (userHasCredit userID w) = true ->
  exists u c, find_user userID (db w) = Some u /\ u_credit u = Some c /\
              0 < c.
Proof.
  unfold userHasCredit.
  destruct w as [d [|[|] fs] l]; run_statements; try discriminate;
    (destruct (find_user userID d) as [u|];
     [destruct (u_credit u) as [c|] eqn:Hc|]); cbn; try discriminate;
    intros H; exists u, c; repeat split; try assumption;
    now apply Z.ltb_lt.
Qed.

Lemma insertText_db (text hash userID : string) (w : world) :
  db (snd (insertText text hash userID w)) = db w \/
  db (snd (insertText text hash userID w)) =
    mkDatabase (user (db w)) (inserted text hash (db w)) \/
  db (snd (insertText text hash userID w)) =
    mkDatabase (map (debit_row userID) (user (db w)))
               (inserted text hash (db w)).
Proof.
  destruct (faults w) as [|[|] [|[|] fs]] eqn:Hf.
  - right. right. now rewrite (insertText_run _ _ _ _ Hf).
  - left. now rewrite (insertText_insert_fails _ _ _ _ _ Hf).
  - left. now rewrite (insertText_insert_fails _ _ _ _ _ Hf).
  - left. now rewrite (insertText_insert_fails _ _ _ _ _ Hf).
  - right. right. rewrite insertText_both_succeed; [reflexivity|].
    rewrite Hf. repeat constructor.
  - right. left. now rewrite (insertText_debit_fails _ _ _ _ _ Hf).
  - right. right. rewrite insertText_both_succeed; [reflexivity|].
    rewrite Hf. repeat constructor.
Qed.

Lemma textHandler_db_step (r : Request) (w : world) :
  db_step (db w) (db (snd (textHandler r w))).
Proof.
  destruct (userHasCredit (token r) w) as [[|] w1] eqn:Hcredit.
  - assert (Hyes : fst (userHasCredit (token r) w) = true)
      by (now rewrite Hcredit).
    destruct (userHasCredit_yes _ _ Hyes) as [u [c [Hu [Hc Hpos]]]].
    assert (Hdb : db w1 = db w).
    { pose proof (userHasCredit_db (token r) w) as H.
      now rewrite Hcredit in H. }
    unfold textHandler, token in *. unfold bind at 1. rewrite Hcredit.
    cbn [negb].
    destruct (Body r) as [| |j].
    + cbn. rewrite Hdb. constructor.
    + cbn. rewrite Hdb. constructor.
    + destruct (Unmarshal_textDocument j) as [td|].
      * unfold bind, ret.
        match goal with
        | |- context [insertText ?a ?b ?c w1] =>
            pose proof (insertText_db a b c w1) as Hins;
            destruct (insertText a b c w1) as [[] w2]
        end.
        cbn [snd] in *. rewrite Hdb in Hins.
        destruct Hins as [->|[->| ->]].
        -- constructor.
        -- constructor.
        -- now apply (step_submit _ _ _ u c).
      * cbn. rewrite Hdb. constructor.
  - rewrite textHandler_refuses by (now rewrite Hcredit).
    cbn [snd]. rewrite userHasCredit_db. constructor.
Qed.

Lemma wrapHandler_db_step (handler : HandlerFunc) (r : Request) (w : world) :
  (forall w1, db_step (db w1) (db (snd (handler r w1)))) ->
  db_step (db w) (db (snd (wrapHandler handler r w))).
Proof.
  intros Hh. unfold wrapHandler, bind.
  pose proof (userIsAuthorized_db r w) as Hdb.
  destruct (userIsAuthorized r w) as [[|] w1]; cbn in *.
  - rewrite <- Hdb. apply Hh.
  - rewrite Hdb. constructor.
Qed.

Lemma serve_db_step (r : Request) (w : world) :
  db_step (db w) (db (snd (serve r w))).
Proof.
  unfold serve, makeRouter.
  destruct (match_route (Method r) (Path r)) as [[| |h]|];
    [| | |constructor]; unfold bind, ret;
    match goal with
    | |- context [wrapHandler ?f ?q w] =>
        pose proof (wrapHandler_db_step f q w) as Hstep;
        destruct (wrapHandler f q w) as [resp w']
    end; cbn [snd] in *; apply Hstep; intros w1.
  - rewrite userHandler_db. constructor.
  - apply textHandler_db_step.
  - rewrite textHashHandler_db. constructor.
Qed.

Lemma serve_all_cons (r : Request) (rs : list Request) (w : world) :
  snd (serve_all (r :: rs) w) = snd (serve_all rs (snd (serve r w))).
Proof.
  cbn [serve_all]. unfold bind, ret.
  destruct (serve r w) as [a w1]. cbn [snd].
  now destruct (serve_all rs w1).
Qed.

(** What holds of the database before requests and is kept by each of
    the three steps holds after them. *)
Lemma serve_all_keeps (P : database -> Prop) :
  (forall d d', db_step d d' -> P d -> P d') ->
  forall (rs : list Request) (w : world),
    P (db w) -> P (db (snd (serve_all rs w))).
Proof.
  intros Hstep rs. induction rs as [|r rs IH]; intros w HP; [exact HP|].
  rewrite serve_all_cons. apply IH.
  apply (Hstep (db w)); [apply serve_db_step | exact HP].
Qed.

End Steps.

Section Invariants.

(** [textHandler] after a credit lookup that said yes. *)
Lemma textHandler_credited (r : Request) (w w1 : world) :
  userHasCredit (token r) w = (true, w1) ->
  textHandler r w =
  match Body r with
  | Unreadable =>
      (mkResponse 500 [] Empty,
       mkWorld (db w1) (faults w1)
         (logged w1 ++ [("Failed to read the request body: %v"%string, [])]))
  | Malformed => (bad_request, w1)
  | Document j =>
      match Unmarshal_textDocument j with
      | None => (bad_request, w1)
      | Some td =>
          (ok_json "Hash" (sha256String (Text td)),
           snd (insertText (Text td) (sha256String (Text td)) (token r) w1))
      end
  end.
Proof.
  intros Hcredit.
  destruct (Body r) as [| |j] eqn:Hb.
  - unfold textHandler, token in *. unfold bind at 1. rewrite Hcredit, Hb.
    reflexivity.
  - unfold textHandler, token in *. unfold bind at 1. rewrite Hcredit, Hb.
    reflexivity.
  - destruct (Unmarshal_textDocument j) as [td|] eqn:Hj.
    + apply (textHandler_submits r w w1 j td Hcredit Hb Hj).
    + unfold textHandler, token in *. unfold bind at 1.
      rewrite Hcredit, Hb, Hj. reflexivity.
Qed.

Lemma textHandler_quiet_or_200 (r : Request) (w : world) :
  db (snd (textHandler r w)) = db w \/
  StatusCode (fst (textHandler r w)) = 200.
Proof.
  destruct (userHasCredit (token r) w) as [[|] w1] eqn:Hcredit.
  - assert (Hdb : db w1 = db w).
    { pose proof (userHasCredit_db (token r) w) as H.
      now rewrite Hcredit in H. }
    rewrite (textHandler_credited r w w1 Hcredit).
    destruct (Body r) as [| |j]; [left; exact Hdb | left; exact Hdb |].
    destruct (Unmarshal_textDocument j) as [td|]; [|left; exact Hdb].
    right. reflexivity.
  - left. rewrite textHandler_refuses by (now rewrite Hcredit).
    apply userHasCredit_db.
Qed.

Lemma well_hashed_inserted (text : string) (d : database) :
  well_hashed d = true ->
  forall us, well_hashed (mkDatabase us (inserted text (sha256String text) d))
             = true.
Proof.
  unfold well_hashed, inserted. cbn [hash_text]. intros Hd us.
  destruct (find_hash (sha256String text) d); [exact Hd|].
  rewrite forallb_app, Hd. cbn [forallb ht_text ht_hash andb].
  now rewrite String.eqb_refl.
Qed.

Lemma credits_not_negative_debit (userID : string) (us : list user_row) :
  forallb (fun u => match u_credit u with
                    | Some c => 0 <=? c
                    | None => true
                    end) us = true ->
  forallb (fun u => match u_credit u with
                    | Some c => 0 <=? c
                    | None => true
                    end) (map (debit_row userID) us) = true.
Proof.
  induction us as [|u us IH]; [reflexivity|].
  cbn [forallb map]. intros H. apply andb_true_iff in H as [Hu Hus].
  rewrite (IH Hus), andb_true_r. unfold debit_row.
  destruct (u_user_id u =? userID)%string; [|exact Hu].
  cbn. destruct (u_credit u) as [c|]; cbn; [|reflexivity].
  apply Z.leb_le. lia.
Qed.

Lemma find_hash_inserted_keeps (text h h' : string) (d : database)
      (t : hash_text_row) (us : list user_row) :
  find_hash h' d = Some t ->
  find_hash h' (mkDatabase us (inserted text h d)) = Some t.
Proof.
  unfold inserted. intros Ht.
  destruct (find_hash h d); unfold find_hash in *; cbn [hash_text];
    [exact Ht|].
  now rewrite find_app_last, Ht.
Qed.

Lemma map_debit_row_ids (userID : string) (us : list user_row) :
  map u_user_id (map (debit_row userID) us) = map u_user_id us /\
  map u_name (map (debit_row userID) us) = map u_name us.
Proof.
  rewrite !map_map. split; apply map_ext; intros u; unfold debit_row;
    now destruct (u_user_id u =? userID)%string.
Qed.

End Invariants.

(** X12.  Only a text submission that is answered 200 writes to the
    database: whenever a request served by the router leaves the
    database different from what it was, whatever statements fail, the
    request was a POST /text and its answer is 200.  GET /user/me, GET
    /text/{hash} and every refused request are read-only. *)
Theorem only_submissions_write :
  forall (r : Request) (w : world) (m : M Response),
    makeRouter r = Some m -> db (snd (m w)) <> db w ->
    match_route (Method r) (Path r) = Some RouteText /\
    StatusCode (fst (m w)) = 200.
Proof.
  intros r w m Hm Hdiff. unfold makeRouter in Hm.
  destruct (match_route (Method r) (Path r)) as [[| |h]|];
    [| | |discriminate]; injection Hm as <-;
    unfold wrapHandler, bind in *;
    pose proof (userIsAuthorized_db r w) as Hdb.
  - exfalso. apply Hdiff.
    destruct (userIsAuthorized r w) as [[|] w1]; cbn in *; [|exact Hdb].
    now rewrite userHandler_db.
  - split; [reflexivity|].
    destruct (userIsAuthorized r w) as [[|] w1]; cbn in *;
      [|now contradiction Hdiff].
    destruct (textHandler_quiet_or_200 r w1) as [Hq|H200]; [|exact H200].
    exfalso. apply Hdiff. now rewrite Hq.
  - exfalso. apply Hdiff.
    set (r' := mkRequest _ _ _ _ _) in *.
    rewrite (userIsAuthorized_headers r r' w eq_refl) in *.
    destruct (userIsAuthorized r w) as [[|] w1]; cbn in *; [|exact Hdb].
    now rewrite textHashHandler_db.
Qed.

Lemma only_submissions_write_witness :
  match_route (Method jane_posts) (Path jane_posts) = Some RouteText /\
  StatusCode (fst (wrapHandler textHandler jane_posts fixtures)) = 200.
Proof.
  assert (Hdiff : db (snd (wrapHandler textHandler jane_posts fixtures)) <>
                  db fixtures)
    by (vm_compute; discriminate).
  exact (only_submissions_write jane_posts fixtures
           (wrapHandler textHandler jane_posts) eq_refl Hdiff).
Defined.

(** X13.  The invariants of the data model are kept by every sequence of
    requests, whatever statements fail along the way: the hash column of
    the content table stays a primary key, every row of the content
    table holds a text under the SHA-256 hash of that text, and no
    credit is negative. *)
Theorem invariants_are_kept :
  forall (rs : list Request) (w : world),
    hash_primary_key (db w) -> well_hashed (db w) = true ->
    credits_not_negative (db w) = true ->
    hash_primary_key (db (snd (serve_all rs w))) /\
    well_hashed (db (snd (serve_all rs w))) = true /\
    credits_not_negative (db (snd (serve_all rs w))) = true.
Proof.
  intros rs w Hpk Hwh Hcr.
  apply (serve_all_keeps
           (fun d => hash_primary_key d /\ well_hashed d = true /\
                     credits_not_negative d = true));
    [|now repeat split].
  clear. intros d d' Hstep [Hpk [Hwh Hcr]].
  destruct Hstep as [|text|text userID u c Hu Hc Hpos].
  - now repeat split.
  - split; [now apply inserted_primary_key|].
    split; [now apply well_hashed_inserted | exact Hcr].
  - split; [|split].
    + apply (inserted_primary_key text (sha256String text) d) in Hpk.
      exact Hpk.
    + now apply well_hashed_inserted.
    + now apply credits_not_negative_debit.
Qed.

Lemma invariants_are_kept_witness :
  hash_primary_key (db (snd (serve_all [jane_posts; petra_posts; jane_gets]
                                       fixtures))) /\
  well_hashed (db (snd (serve_all [jane_posts; petra_posts; jane_gets]
                                  fixtures))) = true /\
  credits_not_negative
    (db (snd (serve_all [jane_posts; petra_posts; jane_gets] fixtures)))
  = true.
Proof.
  assert (Hpk : hash_primary_key (db fixtures)) by constructor.
  exact (invariants_are_kept [jane_posts; petra_posts; jane_gets] fixtures
           Hpk eq_refl eq_refl).
Defined.

(** X14.  No sequence of requests adds, removes, renames or reorders a
    user: the user_id and name columns of the user table are after the
    requests what they were before, whatever statements fail. *)
Theorem users_are_kept :
  forall (rs : list Request) (w : world),
    map u_user_id (user (db (snd (serve_all rs w)))) =
      map u_user_id (user (db w)) /\
    map u_name (user (db (snd (serve_all rs w)))) = map u_name (user (db w)).
Proof.
  intros rs w.
  apply (serve_all_keeps
           (fun d => map u_user_id (user d) = map u_user_id (user (db w)) /\
                     map u_name (user d) = map u_name (user (db w))));
    [|now split].
  intros d d' Hstep [Hid Hname].
  destruct Hstep as [|text|text userID u c Hu Hc Hpos];
    cbn [user]; try (now split).
  destruct (map_debit_row_ids userID (user d)) as [-> ->]. now split.
Qed.

(** X15.  The content table is write-once: a hash that resolves to a
    row keeps resolving to that same row after any sequence of
    requests, whatever statements fail; rows are never changed or
    deleted, and a later submission under a stored hash is ignored. *)
Theorem stored_text_is_permanent :
  forall (rs : list Request) (w : world) (h : string) (t : hash_text_row),
    find_hash h (db w) = Some t ->
    find_hash h (db (snd (serve_all rs w))) = Some t.
Proof.
  intros rs w h t Ht.
  apply (serve_all_keeps (fun d => find_hash h d = Some t)); [|exact Ht].
  intros d d' Hstep Hd.
  destruct Hstep as [|text|text userID u c Hu Hc Hpos].
  - exact Hd.
  - now apply find_hash_inserted_keeps.
  - now apply find_hash_inserted_keeps.
Qed.

Lemma stored_text_is_permanent_witness :
  find_hash (sha256String "test text handler")
    (db (snd (serve_all [jane_posts; petra_posts]
                (snd (serve jane_posts fixtures))))) =
  Some (mkHashText (sha256String "test text handler")
                   (Some "test text handler"%string)).
Proof.
  assert (Ht : find_hash (sha256String "test text handler")
                 (db (snd (serve jane_posts fixtures))) =
               Some (mkHashText (sha256String "test text handler")
                                (Some "test text handler"%string)))
    by (vm_compute; reflexivity).
  exact (stored_text_is_permanent [jane_posts; petra_posts]
           (snd (serve jane_posts fixtures))
           (sha256String "test text handler")
           (mkHashText (sha256String "test text handler")
                       (Some "test text handler"%string)) Ht).
Defined.

Section Billing.

Lemma serve_submission (r : Request) (w : world) (userID : string)
      (u : user_row) (c : Z) :
  submission userID r -> userID <> EmptyString -> faults w = [] ->
  find_user userID (db w) = Some u -> u_credit u = Some c ->
  exists w1,
    serve r w =
      (Some (mkResponse (if 0 <? c then 200 else 402)
                        (RHeader (fst (wrapHandler textHandler r w)))
                        (RBody (fst (wrapHandler textHandler r w)))), w1) /\
    faults w1 = [] /\
    find_user userID (db w1) =
      Some (if 0 <? c then debit_row userID u else u).
Proof.
  intros [Hm [Hp [Htok [j [td [Hb Hj]]]]]] Hne Hf Hu Hc. subst userID.
  unfold serve, makeRouter. rewrite Hm, Hp. cbn [match_route].
  replace (match_route "POST" "/text") with (Some RouteText) by reflexivity.
  unfold bind, ret.
  destruct (Z.ltb_spec 0 c) as [Hpos|Hle].
  - destruct td as [s].
    destruct (submission_served r w j s u c Hm Hp Hb Hj Hne Hu Hc Hpos Hf)
      as [_ Hrun].
    rewrite Hrun. cbn [fst snd]. eexists. split; [reflexivity|].
    split; [reflexivity|]. cbn [db]. rewrite find_user_debit.
    destruct (db w) as [us ts]. cbn in *. now rewrite Hu.
  - rewrite (gate_passes _ r w u Hne Hf Hu).
    assert (Hno : userHasCredit (token r) w = (false, w)).
    { rewrite (userHasCredit_run _ _ u c Hf Hu Hc).
      now apply Z.ltb_ge in Hle as ->. }
    rewrite textHandler_refuses by (now rewrite Hno).
    rewrite Hno. cbn [fst snd]. exists w. repeat split; assumption.
Qed.

Lemma serve_all_step (r : Request) (rs : list Request) (w w1 : world)
      (a : option Response) :
  serve r w = (a, w1) ->
  serve_all (r :: rs) w =
  (a :: fst (serve_all rs w1), snd (serve_all rs w1)).
Proof.
  intros Hr. cbn [serve_all]. unfold bind, ret. rewrite Hr.
  now destruct (serve_all rs w1).
Qed.

Lemma serve_users (r : Request) (w : world) :
  user (db (snd (serve r w))) = user (db w) \/
  user (db (snd (serve r w))) = map (debit_row (token r)) (user (db w)).
Proof.
  assert (Hgate : forall (handler : HandlerFunc) (q : Request),
             (forall w1, user (db (snd (handler q w1))) = user (db w1) \/
                         user (db (snd (handler q w1))) =
                         map (debit_row (token r)) (user (db w1))) ->
             user (db (snd (wrapHandler handler q w))) = user (db w) \/
             user (db (snd (wrapHandler handler q w))) =
             map (debit_row (token r)) (user (db w))).
  { intros handler q Hh. unfold wrapHandler, bind.
    pose proof (userIsAuthorized_db q w) as Hdb.
    destruct (userIsAuthorized q w) as [[|] w1]; cbn in *.
    - rewrite <- Hdb. apply Hh.
    - left. now rewrite Hdb. }
  unfold serve, makeRouter.
  destruct (match_route (Method r) (Path r)) as [[| |h]|];
    [| | |now left]; unfold bind, ret;
    match goal with
    | |- context [wrapHandler ?f ?q w] =>
        pose proof (Hgate f q) as Hstep;
        destruct (wrapHandler f q w) as [resp w']
    end; cbn [snd] in *; apply Hstep; intros w1.
  - left. now rewrite userHandler_db.
  - destruct (userHasCredit (token r) w1) as [[|] w2] eqn:Hcredit.
    + assert (Hdb : db w2 = db w1).
      { pose proof (userHasCredit_db (token r) w1) as H.
        now rewrite Hcredit in H. }
      rewrite (textHandler_credited r w1 w2 Hcredit).
      destruct (Body r) as [| |j]; [left; now rewrite <- Hdb ..|].
      destruct (Unmarshal_textDocument j) as [td|];
        [|left; now rewrite <- Hdb].
      cbn [snd]. rewrite <- Hdb.
      destruct (insertText_db (Text td) (sha256String (Text td))
                  (token r) w2) as [->|[->| ->]]; auto.
    + left. rewrite textHandler_refuses by (now rewrite Hcredit).
      cbn [snd]. now rewrite userHasCredit_db.
  - left. now rewrite textHashHandler_db.
Qed.

End Billing.

(** X16.  Credit gates submissions one for one: when a caller whose
    credit is [c >= 0] sends submissions one after the other and no
    statement fails, the first [c] of them are answered 200 and all
    later ones 402, and the credit left is [max 0 (c - n)] after [n]
    submissions. *)
Theorem credit_gates_submissions :
  forall (rs : list Request) (w : world) (userID : string) (u : user_row)
         (c : Z),
    Forall (submission userID) rs -> userID <> EmptyString ->
    faults w = [] ->
    find_user userID (db w) = Some u -> u_credit u = Some c -> 0 <= c ->
    map (option_map StatusCode) (fst (serve_all rs w)) =
      map (fun i => Some (if Z.of_nat i <? c then 200 else 402))
          (seq 0 (List.length rs)) /\
    credit_of userID (db (snd (serve_all rs w))) =
      Some (Z.max 0 (c - Z.of_nat (List.length rs))).
Proof.
  intros rs. induction rs as [|r rs IH]; intros w userID u c Hall Hne Hf Hu
                                                Hc Hle.
  - split; [reflexivity|]. unfold credit_of. cbn. rewrite Hu, Hc.
    f_equal. lia.
  - inversion Hall as [|? ? Hr Hrs]; subst.
    destruct (serve_submission r w userID u c Hr Hne Hf Hu Hc)
      as [w1 [Hrun [Hf1 Hu1]]].
    rewrite (serve_all_step r rs w w1 _ Hrun). cbn [fst snd map].
    assert (Hid : (u_user_id u =? userID)%string = true).
    { unfold find_user in Hu. now apply find_some in Hu as [_ Hu]. }
    destruct (Z.ltb_spec 0 c) as [Hpos|Hzero].
    + assert (Hc1 : u_credit (debit_row userID u) = Some (c - 1)).
      { unfold debit_row. rewrite Hid. cbn. rewrite Hc. cbn. f_equal. lia. }
      destruct (IH w1 userID (debit_row userID u) (c - 1) Hrs Hne Hf1 Hu1
                   Hc1) as [Hst Hcr]; [lia|].
      split.
      * cbn [List.length seq map option_map StatusCode]. f_equal.
        -- cbn. now apply Z.ltb_lt in Hpos as ->.
        -- rewrite Hst, <- seq_shift, map_map. apply map_ext. intros i.
           do 2 f_equal.
           destruct (Z.ltb_spec (Z.of_nat i) (c - 1));
             destruct (Z.ltb_spec (Z.of_nat (S i)) c); lia || reflexivity.
      * rewrite Hcr. f_equal. cbn [List.length]. lia.
    + assert (c = 0) by lia. subst c.
      destruct (IH w1 userID u 0 Hrs Hne Hf1 Hu1 Hc) as [Hst Hcr]; [lia|].
      split.
      * cbn [List.length seq map option_map StatusCode]. f_equal.
        rewrite Hst, <- seq_shift, map_map. apply map_ext. intros i.
        do 2 f_equal.
        destruct (Z.ltb_spec (Z.of_nat i) 0);
          destruct (Z.ltb_spec (Z.of_nat (S i)) 0); lia || reflexivity.
      * rewrite Hcr. f_equal. cbn [List.length]. lia.
Qed.

(** X17.  A request is charged to its sender only: serving a request
    leaves the credit of every token other than the request's own as it
    was, whatever statements fail. *)
Theorem others_are_not_charged :
  forall (r : Request) (w : world) (other : string),
    other <> token r ->
    credit_of other (db (snd (serve r w))) = credit_of other (db w).
Proof.
  intros r w other Hother. unfold credit_of, find_user.
  destruct (serve_users r w) as [->| ->]; [reflexivity|].
  rewrite find_map_same by (intros a; now rewrite debit_row_id).
  destruct (find (fun u => (u_user_id u =? other)%string) (user (db w)))
    as [u|] eqn:Hu; [|reflexivity].
  cbn. unfold debit_row.
  apply find_some in Hu as [_ Hid]. apply String.eqb_eq in Hid.
  destruct (String.eqb_spec (u_user_id u) (token r)) as [He|]; [|reflexivity].
  exfalso. apply Hother. now rewrite <- Hid.
Qed.

Lemma others_are_not_charged_witness :
  credit_of petra (db (snd (serve jane_posts fixtures))) =
  credit_of petra (db fixtures).
Proof.
  assert (Hother : petra <> token jane_posts)
    by (vm_compute; discriminate).
  exact (others_are_not_charged jane_posts fixtures petra Hother).
Defined.

Lemma credit_gates_submissions_witness :
  map (option_map StatusCode)
      (fst (serve_all [request "POST" "/text" "u" (text_body "a");
                       request "POST" "/text" "u" (text_body "b")]
                      (mkWorld (mkDatabase [mkUser "u" "U" (Some 1)] [])
                               [] []))) =
    map (fun i => Some (if Z.of_nat i <? 1 then 200 else 402))
        (seq 0 (List.length [request "POST" "/text" "u" (text_body "a");
                             request "POST" "/text" "u" (text_body "b")])) /\
  credit_of "u"
    (db (snd (serve_all [request "POST" "/text" "u" (text_body "a");
                         request "POST" "/text" "u" (text_body "b")]
                        (mkWorld (mkDatabase [mkUser "u" "U" (Some 1)] [])
                                 [] [])))) =
    Some (Z.max 0
            (1 - Z.of_nat
                   (List.length [request "POST" "/text" "u" (text_body "a");
                                 request "POST" "/text" "u" (text_body "b")]))).
Proof.
  assert (Hsub : forall s, submission "u" (request "POST" "/text" "u"
                                                   (text_body s))).
  { intros s. repeat split.
    exists (Json.Obj [("text"%string, Json.Str s)]), (mkTextDocument s).
    split; reflexivity. }
  assert (Hall : Forall (submission "u")
                   [request "POST" "/text" "u" (text_body "a");
                    request "POST" "/text" "u" (text_body "b")])
    by (repeat constructor; apply Hsub).
  assert (Hne : "u"%string <> EmptyString) by discriminate.
  assert (Hle : 0 <= 1) by lia.
  exact (credit_gates_submissions
           [request "POST" "/text" "u" (text_body "a");
            request "POST" "/text" "u" (text_body "b")]
           (mkWorld (mkDatabase [mkUser "u" "U" (Some 1)] []) [] [])
           "u" (mkUser "u" "U" (Some 1)) 1 Hall Hne eq_refl eq_refl eq_refl
           Hle).
Defined.

Section Routes.

Lemma strip_prefix_app (p s : string) :
  strip_prefix p (p ++ s) = Some s.
Proof.
  induction p as [|c p IH]; cbn; [reflexivity|].
  now rewrite Ascii.eqb_refl.
Qed.

Lemma strip_prefix_inv (p s t : string) :
  strip_prefix p s = Some t -> s = (p ++ t)%string.
Proof.
  revert s. induction p as [|c p IH]; intros s; cbn.
  - now intros [= ->].
  - destruct s as [|c' s]; [discriminate|].
    destruct (Ascii.eqb_spec c c'); [|discriminate].
    intros H. subst c'. now rewrite (IH s H).
Qed.

Lemma has_char_app (c : ascii) (a b : string) :
  StructTag.has_char c (a ++ b) =
  (StructTag.has_char c a || StructTag.has_char c b)%bool.
Proof.
  induction a as [|x a IH]; cbn; [reflexivity|].
  now rewrite IH, orb_assoc.
Qed.

End Routes.

(** X18.  The router has exactly three routes: GET on the path
    [/user/me], POST on the path [/text], and GET on [/text/] followed
    by one non-empty path segment other than [.] and [..], which
    becomes the route variable.  Nothing else reaches a handler of this
    program. *)
Theorem routes_are_exactly_three :
  forall (method path : string) (rt : route),
    match_route method path = Some rt <->
    (rt = RouteUserMe /\ path = "/user/me"%string /\ method = "GET"%string) \/
    (rt = RouteText /\ path = "/text"%string /\ method = "POST"%string) \/
    (exists h, rt = RouteTextHash h /\ path = ("/text/" ++ h)%string /\
               segment h = true /\ method = "GET"%string).
Proof.
  intros method path rt. unfold match_route. split.
  - destruct ((path =? "/user/me") && (method =? "GET"))%string%bool eqn:H1.
    { apply andb_true_iff in H1 as [Hp Hm].
      apply String.eqb_eq in Hp, Hm. intros [= <-]. left. auto. }
    destruct ((path =? "/text") && (method =? "POST"))%string%bool eqn:H2.
    { apply andb_true_iff in H2 as [Hp Hm].
      apply String.eqb_eq in Hp, Hm. intros [= <-]. right. left. auto. }
    destruct (strip_prefix "/text/" path) as [h|] eqn:Hh; [|discriminate].
    destruct (segment h && (method =? "GET")%string)%bool eqn:H3;
      [|discriminate].
    apply andb_true_iff in H3 as [Hseg Hm]. apply String.eqb_eq in Hm.
    intros [= <-]. right. right. exists h.
    repeat split; try assumption. now apply strip_prefix_inv.
  - intros [[-> [-> ->]]|[[-> [-> ->]]|[h [-> [-> [Hseg ->]]]]]];
      [reflexivity | reflexivity |].
    cbn. now rewrite Hseg.
Qed.

(** X19.  The hash lookup matches one level of path only: a path with a
    further slash after [/text/], and the path [/text/] itself, reach no
    route, whatever the method. *)
Theorem nested_path_is_no_route :
  forall (method a b : string),
    match_route method ("/text/" ++ a ++ "/" ++ b) = None /\
    match_route method "/text/" = None.
Proof.
  intros method a b. split; [|reflexivity].
  unfold match_route.
  replace (("/text/" ++ a ++ "/" ++ b =? "/user/me")%string) with false
    by reflexivity.
  replace (("/text/" ++ a ++ "/" ++ b =? "/text")%string) with false
    by reflexivity.
  cbn [andb]. rewrite strip_prefix_app.
  unfold segment. rewrite has_char_app.
  replace (StructTag.has_char "/" ("/" ++ b)) with true by reflexivity.
  rewrite orb_true_r. cbn [negb]. rewrite andb_false_r. reflexivity.
Qed.


Section Answers.

Lemma userHandler_fine (r : Request) (w : world) :
  fine [200; 404; 500] w (userHandler r w).
Proof.
  unfold userHandler, fine, well_typed.
  destruct w as [d [|[|] fs] l]; run_statements;
    try (destruct (find_user _ d) as [u|];
         [destruct (u_credit u) as [c|]|]);
    cbn; repeat split; auto; try discriminate; intros _; eexists;
    reflexivity.
Qed.

Lemma textHashHandler_fine (r : Request) (w : world) :
  fine [200; 404; 500] w (textHashHandler r w).
Proof.
  unfold textHashHandler, fine, well_typed.
  destruct w as [d [|[|] fs] l]; run_statements;
    try (destruct (find_hash _ d) as [t|];
         [destruct (ht_text t) as [s|]|]);
    cbn; repeat split; auto; try discriminate; intros _; eexists;
    reflexivity.
Qed.

Lemma userHasCredit_yes_logs (userID : string) (w w1 : world) :
  userHasCredit userID w = (true, w1) -> logged w1 = logged w.
Proof.
  unfold userHasCredit.
  destruct w as [d [|[|] fs] l]; run_statements; try discriminate;
    (destruct (find_user userID d) as [u|];
     [destruct (u_credit u) as [c|]|]); cbn; try discriminate;
    now intros [= _ <-].
Qed.

Lemma textHandler_fine (r : Request) (w : world) :
  fine [200; 400; 402; 500] w (textHandler r w).
Proof.
  unfold fine.
  destruct (userHasCredit (token r) w) as [[|] w1] eqn:Hcredit.
  - pose proof (userHasCredit_yes_logs _ _ _ Hcredit) as Hlog.
    rewrite (textHandler_credited r w w1 Hcredit).
    destruct (Body r) as [| |j].
    + cbn. rewrite Hlog. repeat split; auto. intros _. eexists. reflexivity.
    + cbn. repeat split; auto. discriminate.
    + destruct (Unmarshal_textDocument j) as [td|]; cbn;
        repeat split; auto; discriminate.
  - rewrite textHandler_refuses by (now rewrite Hcredit).
    cbn. repeat split; auto. discriminate.
Qed.

Lemma userIsAuthorized_yes_logs (r : Request) (w w1 : world) :
  userIsAuthorized r w = (true, w1) -> logged w1 = logged w.
Proof.
  unfold userIsAuthorized.
  destruct (Header_Get r "X-HashText-User-ID" =? "")%string;
    [discriminate|].
  destruct w as [d [|[|] fs] l]; run_statements; try discriminate;
    destruct (find_user _ d); cbn; try discriminate; now intros [= <-].
Qed.

Lemma wrapHandler_fine (handler : HandlerFunc) (codes : list Z)
      (r : Request) (w : world) :
  (forall w1, fine codes w1 (handler r w1)) ->
  fine (401 :: codes) w (wrapHandler handler r w).
Proof.
  intros Hh. unfold wrapHandler, bind.
  destruct (userIsAuthorized r w) as [[|] w1] eqn:Hauth; cbn [negb].
  - destruct (Hh w1) as [Hty [Hin Hlog]].
    pose proof (userIsAuthorized_yes_logs r w w1 Hauth) as Hl.
    split; [exact Hty|]. split; [now right|].
    intros H500. destruct (Hlog H500) as [e He]. exists e.
    now rewrite <- Hl.
  - unfold fine, well_typed. cbn. repeat split; auto. discriminate.
Qed.

End Answers.

(** X20.  Every answer of a handler has one of three shapes: status 200
    with a JSON body and the JSON content type; status 400 or 402 with
    a text body and the text content type; status 401, 404 or 500 with
    no body and no header.  GET /user/me and GET /text/{hash} answer
    200, 401, 404 or 500 only, and POST /text 200, 400, 401, 402 or 500
    only, whatever statements fail. *)
Theorem answers_are_well_typed :
  forall (r : Request) (w : world) (m : M Response),
    makeRouter r = Some m ->
    well_typed (fst (m w)) /\
    exists rt, match_route (Method r) (Path r) = Some rt /\
               In (StatusCode (fst (m w))) (route_statuses rt).
Proof.
  intros r w m Hm. unfold makeRouter in Hm.
  destruct (match_route (Method r) (Path r)) as [[| |h]|];
    [| | |discriminate]; injection Hm as <-.
  - destruct (wrapHandler_fine userHandler [200; 404; 500] r w
                (userHandler_fine r)) as [Hty [Hin _]].
    split; [exact Hty|]. exists RouteUserMe. split; [reflexivity|].
    cbn in *. tauto.
  - destruct (wrapHandler_fine textHandler [200; 400; 402; 500] r w
                (textHandler_fine r)) as [Hty [Hin _]].
    split; [exact Hty|]. exists RouteText. split; [reflexivity|].
    cbn in *. tauto.
  - set (r' := mkRequest _ _ _ _ _).
    destruct (wrapHandler_fine textHashHandler [200; 404; 500] r' w
                (textHashHandler_fine r')) as [Hty [Hin _]].
    split; [exact Hty|]. exists (RouteTextHash h). split; [reflexivity|].
    cbn in *. tauto.
Qed.

Lemma answers_are_well_typed_witness :
  well_typed (fst (wrapHandler textHandler petra_posts fixtures)) /\
  exists rt, match_route (Method petra_posts) (Path petra_posts) = Some rt /\
             In (StatusCode (fst (wrapHandler textHandler petra_posts
                                    fixtures)))
                (route_statuses rt).
Proof.
  exact (answers_are_well_typed petra_posts fixtures
           (wrapHandler textHandler petra_posts) eq_refl).
Defined.

(** X21.  No failure goes unrecorded and none is shown to the caller:
    whenever a request served by the router is answered 500, the answer
    has no body and the request has added exactly one entry to the
    log. *)
Theorem every_500_is_logged :
  forall (r : Request) (w : world) (m : M Response),
    makeRouter r = Some m -> StatusCode (fst (m w)) = 500 ->
    RBody (fst (m w)) = Empty /\
    exists e, logged (snd (m w)) = logged w ++ [e].
Proof.
  intros r w m Hm H500. unfold makeRouter in Hm.
  assert (Hfine : exists codes, fine codes w (m w)).
  { destruct (match_route (Method r) (Path r)) as [[| |h]|];
      [| | |discriminate]; injection Hm as <-; eexists;
      apply wrapHandler_fine; intros w1;
      [apply userHandler_fine | apply textHandler_fine
       | apply textHashHandler_fine]. }
  destruct Hfine as [codes [Hty [_ Hlog]]].
  split; [|now apply Hlog].
  unfold well_typed in Hty.
  destruct (RBody (fst (m w))); [reflexivity| |].
  - destruct Hty as [[H|H] _]; rewrite H500 in H; discriminate.
  - destruct Hty as [H _]. rewrite H500 in H. discriminate.
Qed.

Lemma every_500_is_logged_witness :
  RBody (fst (wrapHandler textHandler
                (request "POST" "/text" jane Unreadable) fixtures)) = Empty /\
  exists e,
    logged (snd (wrapHandler textHandler
                   (request "POST" "/text" jane Unreadable) fixtures)) =
    logged fixtures ++ [e].
Proof.
  assert (H500 : StatusCode
                   (fst (wrapHandler textHandler
                           (request "POST" "/text" jane Unreadable)
                           fixtures)) = 500)
    by (vm_compute; reflexivity).
  exact (every_500_is_logged (request "POST" "/text" jane Unreadable)
           fixtures
           (wrapHandler textHandler (request "POST" "/text" jane Unreadable))
           eq_refl H500).
Defined.
